(** * OJT record service: authentication and student-record lifecycle

    A shallow embedding of the request handlers of [server.js] and of the
    schema of [Student.js], with the properties of the specification stated
    over it.

    Conventions of the model:
    - a JavaScript object (request body, stored document) is a finite map
      from property names to values; a property that is [undefined] is a
      key that is absent;
    - a string is a sequence of code units below 256;
    - a handler is a state transformer on the two collections, inside a
      [try]/[catch]: what is written before an exception stays written;
    - the clock, the salt drawn by bcrypt and storage failures are inputs
      of a request ([env]);
    - route parameters ([:userId], [:studentId]) are taken as ObjectIds;
      a parameter that is no ObjectId is outside the model. *)

From stdpp Require Import gmap strings list sorting.
From Stdlib Require Import ZArith Ascii String.

Local Open Scope string_scope.
Local Open Scope list_scope.
Local Open Scope Z_scope.
Local Set Warnings "-register-all".

(** ** Values *)

Definition oid := N.

(** JSON values, plus the two BSON types stored documents carry. *)
Inductive val :=
| VNull
| VBool (b : bool)
| VNum (n : Z)
| VStr (s : string)
| VArr (l : list val)
| VObj (o : list (string * val))
| VId (i : oid)
| VDate (t : Z).

Abbreviation obj := (gmap string val).

(** What a [try] block can throw. *)
Inductive exn :=
| TypeError          (* property access on undefined, call of a non-function *)
| IllegalArguments   (* bcryptjs on a non-string *)
| CastError          (* Mongoose: value does not cast to the schema type *)
| ValidationError    (* Mongoose: document validation *)
| MongoError.        (* storage layer *)

(** The storage calls the handlers make. *)
Inductive dbop :=
| OpUserFindOne | OpUserCreate | OpUserSave | OpUserFindByIdAndDelete
| OpStudentCreate | OpStudentFindOne | OpStudentFindOneAndUpdate
| OpStudentFindById | OpStudentFindByIdAndDelete.

(** Inputs of one request besides its body and route parameter: the clock
    reading (ms), the salt bcrypt draws, and which storage calls fail. *)
Record env := { now : Z; salt : string; fails : dbop -> bool }.

(** ** External libraries *)

(** bcryptjs on strings: [hash] with a drawn salt, and [compare], which
    accepts a plain text against any of its digests. *)
Class Bcrypt := {
  bcrypt_digest : string -> string -> string;
  bcrypt_verify : string -> string -> bool;
  bcrypt_verify_digest :
    forall plain slt, bcrypt_verify plain (bcrypt_digest plain slt) = true
}.

(** jsonwebtoken under the process-wide secret, which is taken to be
    configured: signing is total, and decoding gives the claims back. *)
Record claims := { c_userId : oid; c_role : string; c_iat : Z; c_exp : Z }.

Class Jwt := {
  jwt_encode : claims -> string;
  jwt_decode : string -> option claims;
  jwt_decode_encode : forall c, jwt_decode (jwt_encode c) = Some c
}.

(** Schema types of [Student.js]. *)
Inductive stype := SObjectId | SString | SDate | SArray (t : stype).

(** Mongoose on values that are not already of the schema type: left
    open. [None] is a cast failure. *)
Class Mongoose := {
  cast_other : stype -> val -> option val;
  filter_other : option val -> option (string -> bool);
  email_other : option val -> option string;
  operators_other : gmap string val -> option (gmap string val -> option (gmap string val))
}.

(** ** Stored state *)

(** Modelled from the spec: the Account model ([models/User.js] is not
    part of the sources): identifier, email stored as given, password
    hash, role; no constraint checked by the store itself. *)
Record User := { u_id : oid; u_email : string; u_password : string; u_role : string }.

Record db := { users : list User; students : list obj; next_id : oid }.

Definition empty_db : db := {| users := []; students := []; next_id := 0%N |}.

(** The ObjectId a document holds at a path. *)
Definition ref (k : string) (d : obj) : option oid :=
  match d !! k with Some (VId i) => Some i | _ => None end.

(** The data model's invariants: identifiers are the store's, no two
    records of a collection share one, and an account owns at most one
    profile. *)
Record consistent (st : db) : Prop := {
  account_ids_known : Forall (fun u => (u_id u < next_id st)%N) (users st);
  account_ids_unique : NoDup (u_id <$> users st);
  profile_ids_known :
    Forall (fun d => exists i, ref "_id" d = Some i /\ (i < next_id st)%N) (students st);
  profile_ids_unique : NoDup (omap (ref "_id") (students st));
  links_known :
    Forall (fun d => forall a, ref "userId" d = Some a -> (a < next_id st)%N) (students st);
  one_profile_per_account : NoDup (omap (ref "userId") (students st))
}.

(** ** Responses *)

Record account_view := { v_id : oid; v_email : string; v_role : string }.

Inductive payload :=
| Failure (error : string)
| LoginOk (role : string) (token : string) (user : account_view)
| RegisterOk (token : string) (user : account_view)
| StudentOk (student : obj)
| Done.

Record response := { status : Z; json : payload }.

(** ** Handlers as computations *)

Definition M (A : Type) : Type := db -> (exn + A) * db.

Definition ret {A} (a : A) : M A := fun st => (inr a, st).
Definition throw {A} (e : exn) : M A := fun st => (inl e, st).
Definition bind {A B} (m : M A) (k : A -> M B) : M B :=
  fun st => match m st with
            | (inl e, st') => (inl e, st')
            | (inr a, st') => k a st'
            end.
Definition lift {A} (r : exn + A) : M A := fun st => (r, st).

Notation "'let!' x ':=' m 'in' k" := (bind m (fun x => k))
  (at level 10, x name, m at level 100, k at level 200).

(** [try { ... } catch (error) { res.status(500).json(...) }] *)
Definition try_catch (m : M response) (handler : exn -> response) (st : db)
  : response * db :=
  match m st with
  | (inl e, st') => (handler e, st')
  | (inr r, st') => (r, st')
  end.

Definition reply (code : Z) (p : payload) : response := {| status := code; json := p |}.
Definition fail_with (code : Z) (msg : string) : response := reply code (Failure msg).

(** ** JavaScript string primitives used by [register] *)

(** White space of [String.prototype.trim] among the code units below 256:
    TAB, LF, VT, FF, CR, SPACE, NBSP. *)
Definition is_white_space (c : ascii) : bool :=
  let n := nat_of_ascii c in
  ((9 <=? n) && (n <=? 13) || (n =? 32) || (n =? 160))%nat.

(** [s.split(sep)] for a one-character separator: the pieces between the
    separators, empty pieces included. *)
Fixpoint split (sep : ascii) (s : string) : list string :=
  match s with
  | EmptyString => [EmptyString]
  | String c rest =>
      if Ascii.eqb c sep then EmptyString :: split sep rest
      else match split sep rest with
           | piece :: pieces => String c piece :: pieces
           | [] => [String c EmptyString]
           end
  end.

Fixpoint trim_start (s : string) : string :=
  match s with
  | EmptyString => EmptyString
  | String c rest => if is_white_space c then trim_start rest else s
  end.

Fixpoint trim_end (s : string) : string :=
  match s with
  | EmptyString => EmptyString
  | String c rest =>
      match trim_end rest with
      | EmptyString => if is_white_space c then EmptyString else String c EmptyString
      | kept => String c kept
      end
  end.

(** [s.trim()] *)
Definition trim (s : string) : string := trim_end (trim_start s).

(** Truthiness of a string: [filter(s => s)] keeps the non-empty ones. *)
Definition truthy (s : string) : Prop := s <> EmptyString.

#[global] Instance truthy_dec s : Decision (truthy s).
Proof. unfold truthy. apply _. Defined.

(** [skills.split(',').map(s => s.trim()).filter(s => s)]; the method call
    throws unless [skills] is a string. *)
Definition split_skills (skills : option val) : exn + list string :=
  match skills with
  | Some (VStr s) => inr (filter truthy (trim <$> split "," s))
  | _ => inl TypeError
  end.

(** ** The student schema ([Student.js]) *)

Record spath := { ptype : stype; required : bool; default_now : bool }.

Definition path (t : stype) (req dflt : bool) : spath :=
  {| ptype := t; required := req; default_now := dflt |}.

Definition studentSchema : list (string * spath) :=
  [ ("userId",        path SObjectId        true  false);
    ("email",         path SString          true  false);
    ("fullName",      path SString          true  false);
    ("department",    path SString          true  false);
    ("project",       path SString          false false);
    ("skills",        path (SArray SString) false false);
    ("school",        path SString          true  false);
    ("course",        path SString          true  false);
    ("yearLevel",     path SString          true  false);
    ("contactNumber", path SString          true  false);
    ("address",       path SString          true  false);
    ("startDate",     path SString          true  false);
    ("endDate",       path SString          true  false);
    ("createdAt",     path SDate            false true);
    ("updatedAt",     path SDate            false true) ].

(** Every Mongoose schema also has the [_id] path. *)
Definition studentPaths : list (string * spath) :=
  ("_id", path SObjectId false false) :: studentSchema.

Section Service.

Context `{Bcrypt} `{Jwt} `{Mongoose}.

(** ** Mongoose: casting, validation *)

Definition is_str (v : val) : bool := match v with VStr _ => true | _ => false end.

(** A value of the schema type casts to itself, a number casts to the
    date with that many milliseconds; the rest is the library's. *)
Definition cast (t : stype) (v : val) : option val :=
  match t, v with
  | SString, VStr _ => Some v
  | SObjectId, VId _ => Some v
  | SDate, VDate _ => Some v
  | SDate, VNum n => Some (VDate n)
  | SArray SString, VArr l => if forallb is_str l then Some v else cast_other t v
  | _, _ => cast_other t v
  end.

(** Strict mode: only schema paths are kept, each cast to its type. *)
Fixpoint cast_doc (schema : list (string * spath)) (o : obj) : option obj :=
  match schema with
  | [] => Some ∅
  | (k, p) :: rest =>
      match cast_doc rest o with
      | None => None
      | Some d =>
          match o !! k with
          | None => Some d
          | Some v => match cast (ptype p) v with
                      | None => None
                      | Some v' => Some (<[k := v']> d)
                      end
          end
      end
  end.

(** [default: Date.now] *)
Definition apply_defaults (e : env) (schema : list (string * spath)) (d : obj) : obj :=
  foldr (fun '(k, p) d =>
           if default_now p then
             match d !! k with None => <[k := VDate (now e)]> d | Some _ => d end
           else d) d schema.

(** [required: true]: the value is there, is not null and, for a string,
    is not empty. *)
Definition required_ok (v : option val) : bool :=
  match v with
  | None | Some VNull => false
  | Some (VStr s) => negb (String.eqb s EmptyString)
  | Some _ => true
  end.

Definition validate (schema : list (string * spath)) (d : obj) : bool :=
  forallb (fun '(k, p) => if required p then required_ok (d !! k) else true) schema.

(** ** The two models *)

(** A filter [{ email }] on the accounts. *)
Definition email_filter (email : option val) : option (string -> bool) :=
  match email with
  | Some (VStr s) => Some (String.eqb s)
  | _ => filter_other email
  end.

(** [User.findOne({ email })] *)
Definition User_findOne (e : env) (email : option val) : M (option User) :=
  fun st =>
    if fails e OpUserFindOne then (inl MongoError, st)
    else match email_filter email with
         | None => (inl CastError, st)
         | Some p => (inr (find (fun u => p (u_email u)) (users st)), st)
         end.

(** Modelled from the spec: [User.create({ email, password, role })] of
    the Account model, which is not part of the sources: the new account
    gets a fresh identifier and is stored with the fields given. *)
Definition User_create (e : env) (email : option val) (password role : string) : M User :=
  fun st =>
    match (match email with Some (VStr s) => Some s | _ => email_other email end) with
    | None => (inl ValidationError, st)
    | Some s =>
        if fails e OpUserCreate then (inl MongoError, st)
        else
          let u := {| u_id := next_id st; u_email := s;
                      u_password := password; u_role := role |} in
          (inr u, {| users := users st ++ [u]; students := students st;
                     next_id := N.succ (next_id st) |})
    end.

(** [Student.create(fields)] *)
Definition Student_create (e : env) (fields : obj) : M obj :=
  fun st =>
    match cast_doc studentSchema fields with
    | None => (inl ValidationError, st)
    | Some d =>
        let d := apply_defaults e studentSchema d in
        if negb (validate studentSchema d) then (inl ValidationError, st)
        else if fails e OpStudentCreate then (inl MongoError, st)
        else
          let d := <["_id" := VId (next_id st)]> d in
          (inr d, {| users := users st; students := students st ++ [d];
                     next_id := N.succ (next_id st) |})
    end.

Definition has_id (k : string) (i : oid) (d : obj) : bool :=
  match d !! k with Some (VId j) => N.eqb i j | _ => false end.

(** [Student.findOne({ userId })] *)
Definition Student_findOne (e : env) (userId : oid) : M (option obj) :=
  fun st =>
    if fails e OpStudentFindOne then (inl MongoError, st)
    else (inr (find (has_id "userId" userId) (students st)), st).

(** [Student.findById(id)] *)
Definition Student_findById (e : env) (id : oid) : M (option obj) :=
  fun st =>
    if fails e OpStudentFindById then (inl MongoError, st)
    else (inr (find (has_id "_id" id) (students st)), st).

(** Removal of the first element a predicate selects. *)
Fixpoint remove_first {A} (p : A -> bool) (l : list A) : list A :=
  match l with
  | [] => []
  | x :: rest => if p x then rest else x :: remove_first p rest
  end.

(** [User.findByIdAndDelete(id)]; [id] is [undefined] or no ObjectId when
    the profile carries no account reference, and then nothing matches. *)
Definition User_findByIdAndDelete (e : env) (id : option val) : M unit :=
  fun st =>
    if fails e OpUserFindByIdAndDelete then (inl MongoError, st)
    else match id with
         | Some (VId i) =>
             (inr tt, {| users := remove_first (fun u => N.eqb i (u_id u)) (users st);
                         students := students st; next_id := next_id st |})
         | _ => (inr tt, st)
         end.

(** [Student.findByIdAndDelete(id)] *)
Definition Student_findByIdAndDelete (e : env) (id : oid) : M unit :=
  fun st =>
    if fails e OpStudentFindByIdAndDelete then (inl MongoError, st)
    else (inr tt, {| users := users st;
                     students := remove_first (has_id "_id" id) (students st);
                     next_id := next_id st |}).

(** Replacement of the first element a predicate selects. *)
Fixpoint replace_first {A} (p : A -> bool) (y : A) (l : list A) : list A :=
  match l with
  | [] => []
  | x :: rest => if p x then y :: rest else x :: replace_first p y rest
  end.

(** A property name that is a plain path: no update operator ([$set],
    [$unset], ...) and no dotted path into a value. *)
Fixpoint has_dot (k : string) : bool :=
  match k with
  | EmptyString => false
  | String c rest => Ascii.eqb c "." || has_dot rest
  end.

Definition plain_key (k : string) : bool :=
  match k with
  | String "$" _ => false
  | _ => negb (has_dot k)
  end.

Definition plain (o : obj) : Prop := map_Forall (fun k _ => plain_key k = true) o.

(** The server refuses an update that would change [_id]. *)
Definition keeps_id (set d : obj) : bool :=
  match set !! "_id" with
  | None => true
  | Some (VId i) => has_id "_id" i d
  | Some _ => false
  end.

(** How the library prepares an update that carries operators or dotted
    paths: left open. *)
Definition prepared := obj -> option obj.

(** [Student.findOneAndUpdate({ userId }, update, { new: true })]: the
    update is cast against the schema before the query is sent, and its
    paths are set on the first profile of that account; no validator
    runs. *)
Definition prepare_update (update : obj) : option prepared :=
  if decide (plain update) then
    match cast_doc studentPaths update with
    | None => None
    | Some set => Some (fun d => if keeps_id set d then Some (set ∪ d) else None)
    end
  else operators_other update.

Definition Student_findOneAndUpdate (e : env) (userId : oid) (update : obj)
  : M (option obj) :=
  fun st =>
    match prepare_update update with
    | None => (inl CastError, st)
    | Some apply =>
        if fails e OpStudentFindOneAndUpdate then (inl MongoError, st)
        else
          match find (has_id "userId" userId) (students st) with
          | None => (inr None, st)
          | Some d =>
              match apply d with
              | None => (inl MongoError, st)
              | Some d' =>
                  (inr (Some d'),
                   {| users := users st;
                      students := replace_first (has_id "userId" userId) d' (students st);
                      next_id := next_id st |})
              end
          end
    end.

(** [user.save()] after [user.password = hashedPassword] *)
Definition User_save (e : env) (u : User) : M unit :=
  fun st =>
    if fails e OpUserSave then (inl MongoError, st)
    else (inr tt, {| users := replace_first (fun x => N.eqb (u_id u) (u_id x)) u (users st);
                     students := students st; next_id := next_id st |}).

(** ** bcryptjs and jsonwebtoken as the handlers call them *)

(** [bcrypt.hash(s, 10)]: rejects unless [s] is a string. *)
Definition bcrypt_hash (e : env) (s : option val) : M string :=
  match s with
  | Some (VStr plain) => ret (bcrypt_digest plain (salt e))
  | _ => throw IllegalArguments
  end.

(** [bcrypt.compare(s, hash)]: rejects unless [s] is a string. *)
Definition bcrypt_compare (s : option val) (hash : string) : M bool :=
  match s with
  | Some (VStr plain) => ret (bcrypt_verify plain hash)
  | _ => throw IllegalArguments
  end.

Definition seven_days : Z := 7 * 24 * 60 * 60.

(** [jwt.sign({ userId, role }, secret, { expiresIn: '7d' })] *)
Definition jwt_sign (e : env) (userId : oid) (role : string) : string :=
  let iat := now e / 1000 in
  jwt_encode {| c_userId := userId; c_role := role;
                c_iat := iat; c_exp := iat + seven_days |}.

Definition view_of (u : User) : account_view :=
  {| v_id := u_id u; v_email := u_email u; v_role := u_role u |}.

(** An object literal; a property whose value is [undefined] is not set. *)
Definition object_literal (props : list (string * option val)) : obj :=
  foldr (fun '(k, v) o => match v with Some v => <[k := v]> o | None => o end) ∅ props.

(** ** The routes of [server.js] *)

(** [initializeAdmin] *)
Definition initializeAdmin (e : env) (st : db) : db :=
  snd (bind (User_findOne e (Some (VStr "admin@ojt.com"))) (fun adminExists =>
         match adminExists with
         | Some _ => ret tt
         | None =>
             let! hashedPassword := bcrypt_hash e (Some (VStr "admin123")) in
             let! _ := User_create e (Some (VStr "admin@ojt.com")) hashedPassword "admin" in
             ret tt
         end) st).

(** [POST /api/login] *)
Definition login_try (e : env) (body : obj) : M response :=
  let email := body !! "email" in
  let password := body !! "password" in
  let! user := User_findOne e email in
  match user with
  | None => ret (fail_with 401 "Invalid credentials")
  | Some user =>
      let! isMatch := bcrypt_compare password (u_password user) in
      if negb isMatch then ret (fail_with 401 "Invalid credentials")
      else
        let token := jwt_sign e (u_id user) (u_role user) in
        ret (reply 200 (LoginOk (u_role user) token (view_of user)))
  end.

Definition login (e : env) (body : obj) : db -> response * db :=
  try_catch (login_try e body) (fun _ => fail_with 500 "Login failed").

(** [studentData.department === 'IT'] *)
Definition is_IT (department : option val) : bool :=
  match department with
  | Some (VStr s) => String.eqb s "IT"
  | _ => false
  end.

(** The argument of [Student.create] in [register]. *)
Definition student_fields (user : User) (email : option val) (studentData : obj)
    (skills : list string) : obj :=
  object_literal
    [ ("userId", Some (VId (u_id user)));
      ("email", email);
      ("fullName", studentData !! "fullName");
      ("department", studentData !! "department");
      ("project", if is_IT (studentData !! "department")
                  then studentData !! "project" else None);
      ("skills", Some (VArr (VStr <$> skills)));
      ("school", studentData !! "school");
      ("course", studentData !! "course");
      ("yearLevel", studentData !! "yearLevel");
      ("contactNumber", studentData !! "contactNumber");
      ("address", studentData !! "address");
      ("startDate", studentData !! "startDate");
      ("endDate", studentData !! "endDate") ].

(** [POST /api/register] *)
Definition register_try (e : env) (body : obj) : M response :=
  let email := body !! "email" in
  let password := body !! "password" in
  let studentData := delete "password" (delete "email" body) in
  let! existingUser := User_findOne e email in
  match existingUser with
  | Some _ => ret (fail_with 400 "Email already registered")
  | None =>
      let! hashedPassword := bcrypt_hash e password in
      let! user := User_create e email hashedPassword "student" in
      let! skills := lift (split_skills (studentData !! "skills")) in
      let! student := Student_create e (student_fields user email studentData skills) in
      let token := jwt_sign e (u_id user) (u_role user) in
      ret (reply 200 (RegisterOk token (view_of user)))
  end.

Definition register (e : env) (body : obj) : db -> response * db :=
  try_catch (register_try e body) (fun _ => fail_with 500 "Registration failed").

(** [GET /api/student/:userId] *)
Definition getStudent (e : env) (userId : oid) : db -> response * db :=
  try_catch
    (let! student := Student_findOne e userId in
     match student with
     | None => ret (fail_with 404 "Student not found")
     | Some student => ret (reply 200 (StudentOk student))
     end)
    (fun _ => fail_with 500 "Failed to get profile").

(** [PUT /api/student/:userId] *)
Definition updateStudent (e : env) (userId : oid) (body : obj) : db -> response * db :=
  try_catch
    (let! student := Student_findOneAndUpdate e userId
                       (<["updatedAt" := VDate (now e)]> body) in
     match student with
     | None => ret (fail_with 404 "Student not found")
     | Some student => ret (reply 200 (StudentOk student))
     end)
    (fun _ => fail_with 500 "Update failed").

(** [DELETE /api/student/:studentId] *)
Definition deleteStudent (e : env) (studentId : oid) : db -> response * db :=
  try_catch
    (let! student := Student_findById e studentId in
     match student with
     | None => ret (fail_with 404 "Student not found")
     | Some student =>
         let! _ := User_findByIdAndDelete e (student !! "userId") in
         let! _ := Student_findByIdAndDelete e studentId in
         ret (reply 200 Done)
     end)
    (fun _ => fail_with 500 "Delete failed").

(** [POST /api/reset-password] *)
Definition resetPassword (e : env) (body : obj) : db -> response * db :=
  try_catch
    (let email := body !! "email" in
     let newPassword := body !! "newPassword" in
     let! user := User_findOne e email in
     match user with
     | None => ret (fail_with 404 "Email not found")
     | Some user =>
         let! hashedPassword := bcrypt_hash e newPassword in
         let! _ := User_save e {| u_id := u_id user; u_email := u_email user;
                                  u_password := hashedPassword; u_role := u_role user |} in
         ret (reply 200 Done)
     end)
    (fun _ => fail_with 500 "Password reset failed").

End Service.

(** ** An instance of the libraries

    Used to run the handlers on concrete requests: a digest that keeps
    the plain text behind the salt, a token that serialises its claims,
    and a Mongoose that rejects whatever is not of the schema type. *)
Module Demo.

(** The digest is the plain text, a [$], then the salt. *)
Fixpoint digest (plain slt : string) : string :=
  match plain with
  | EmptyString => String "$" slt
  | String c rest => String c (digest rest slt)
  end.

Fixpoint verify (plain hash : string) : bool :=
  match plain, hash with
  | EmptyString, String c _ => Ascii.eqb c "$"
  | String a rest, String b h => Ascii.eqb a b && verify rest h
  | _, _ => false
  end.

Lemma verify_digest plain slt : verify plain (digest plain slt) = true.
Proof.
  induction plain as [|c p IH]; simpl; [reflexivity|].
  now rewrite Ascii.eqb_refl, IH.
Qed.

#[export] Instance demo_bcrypt : Bcrypt :=
  {| bcrypt_digest := digest; bcrypt_verify := verify;
     bcrypt_verify_digest := verify_digest |}.

Fixpoint bits_of_pos (p : positive) : string :=
  match p with
  | xH => EmptyString
  | xO q => String "0" (bits_of_pos q)
  | xI q => String "1" (bits_of_pos q)
  end.

Fixpoint pos_of_bits (s : string) : positive :=
  match s with
  | EmptyString => xH
  | String c rest => if Ascii.eqb c "0" then xO (pos_of_bits rest) else xI (pos_of_bits rest)
  end.

Lemma pos_of_bits_of_pos p : pos_of_bits (bits_of_pos p) = p.
Proof. induction p as [q IH|q IH|]; simpl; congruence. Qed.

Definition tuple_of (c : claims) : N * string * Z * Z :=
  (c_userId c, c_role c, c_iat c, c_exp c).
Definition claims_of (t : N * string * Z * Z) : claims :=
  let '(i, r, a, x) := t in {| c_userId := i; c_role := r; c_iat := a; c_exp := x |}.

Definition token_of (c : claims) : string := bits_of_pos (encode (tuple_of c)).
Definition read_token (s : string) : option claims :=
  claims_of <$> decode (pos_of_bits s).

Lemma read_token_of c : read_token (token_of c) = Some c.
Proof.
  unfold read_token, token_of.
  rewrite pos_of_bits_of_pos, decode_encode. now destruct c.
Qed.

#[export] Instance demo_jwt : Jwt :=
  {| jwt_encode := token_of; jwt_decode := read_token;
     jwt_decode_encode := read_token_of |}.

#[export] Instance demo_mongoose : Mongoose :=
  {| cast_other := fun _ _ => None;
     filter_other := fun _ => None;
     email_other := fun _ => None;
     operators_other := fun _ => None |}.

Definition at_time (t : Z) : env := {| now := t; salt := "salt"; fails := fun _ => false |}.

Definition failing (t : Z) (op : dbop) : env :=
  {| now := t; salt := "salt";
     fails := fun o => match op, o with
                       | OpStudentCreate, OpStudentCreate
                       | OpUserFindByIdAndDelete, OpUserFindByIdAndDelete
                       | OpStudentFindByIdAndDelete, OpStudentFindByIdAndDelete => true
                       | _, _ => false
                       end |}.

(** The registration request of the specification's scenario. *)
Definition alice : obj :=
  list_to_map
    [ ("email", VStr "a@x.com"); ("password", VStr "p1");
      ("fullName", VStr "Alice A"); ("department", VStr "IT");
      ("project", VStr "Alpha"); ("skills", VStr "go, rust, c");
      ("school", VStr "S"); ("course", VStr "C"); ("yearLevel", VStr "3");
      ("contactNumber", VStr "0"); ("address", VStr "A");
      ("startDate", VStr "2024-01-01"); ("endDate", VStr "2024-06-01") ].

(** The same request from another department. *)
Definition alice_hr : obj := <["department" := VStr "HR"]> alice.

Definition alice_account : User :=
  {| u_id := 0%N; u_email := "a@x.com"; u_password := digest "p1" "salt";
     u_role := "student" |}.
Definition alice_view : account_view :=
  {| v_id := 0%N; v_email := "a@x.com"; v_role := "student" |}.
Definition alice_token : string := jwt_sign (at_time 1000) 0%N "student".

(** The store after [alice] registered at time 1000 on the empty store. *)
Definition registered : db := snd (register (at_time 1000) alice empty_db).

(** The store after a registration that lacked [fullName]. *)
Definition orphaned : db :=
  {| users := [alice_account]; students := []; next_id := 1%N |}.

(** Two update requests. *)
Definition new_course : obj := {[ "course" := VStr "Math" ]}.
Definition backdated : obj := {[ "createdAt" := VNum 5000 ]}.


End Demo.

#[global] Arguments cast_doc : simpl never.
#[global] Arguments apply_defaults : simpl never.
#[global] Arguments validate : simpl never.
#[global] Arguments student_fields : simpl never.
#[global] Arguments object_literal : simpl never.
#[global] Arguments prepare_update : simpl never.

(** * Properties *)

Section Properties.

Context `{Bcrypt} `{Jwt} `{Mongoose}.

(** ** Notions the statements use *)

(** [pieces.join(sep)] *)
Fixpoint join (sep : ascii) (pieces : list string) : string :=
  match pieces with
  | [] => EmptyString
  | [piece] => piece
  | piece :: rest => String.append piece (String sep (join sep rest))
  end.

(** [s.includes(c)] *)
Fixpoint has_char (c : ascii) (s : string) : bool :=
  match s with
  | EmptyString => false
  | String x rest => Ascii.eqb x c || has_char c rest
  end.

(** The string does not start with white space. *)
Definition starts_clean (s : string) : Prop :=
  match s with
  | EmptyString => True
  | String c _ => is_white_space c = false
  end.

(** The account [User.findOne] returns for a string email. *)
Definition account_with (email : string) (st : db) : option User :=
  find (fun u => String.eqb email (u_email u)) (users st).

(** [typeof v !== 'string'] *)
Definition not_a_string (v : option val) : Prop :=
  match v with Some (VStr _) => False | _ => True end.

(** The account [register] creates for a string email and password. *)
Definition new_account (e : env) (email plain : string) (st : db) : User :=
  {| u_id := next_id st; u_email := email;
     u_password := bcrypt_digest plain (salt e); u_role := "student" |}.

(** The store after one insertion, after a replacement of the profiles,
    after one deletion. *)
Definition with_account (u : User) (st : db) : db :=
  {| users := users st ++ [u]; students := students st; next_id := N.succ (next_id st) |}.

Definition with_student (d : obj) (st : db) : db :=
  {| users := users st; students := students st ++ [d]; next_id := N.succ (next_id st) |}.

(** The profile [Student.create] stores for the cast fields [d0]. *)
Definition new_profile (e : env) (d0 : obj) (st : db) : obj :=
  <["_id" := VId (next_id st)]> (apply_defaults e studentSchema d0).

(** [const { email, password, ...studentData } = req.body] *)
Definition studentData_of (body : obj) : obj := delete "password" (delete "email" body).

(** The properties of the body [register] looks at. *)
Definition register_reads : list string :=
  [ "email"; "password"; "fullName"; "department"; "project"; "skills"; "school";
    "course"; "yearLevel"; "contactNumber"; "address"; "startDate"; "endDate" ].

(** The four ways a registration ends: nothing written (an exception
    before the account is stored), the email refused, an account stored
    and no profile, or account and profile stored. *)
Inductive register_outcome (e : env) (body : obj) (st : db) : response -> db -> Prop :=
| reg_aborted :
    register_outcome e body st (fail_with 500 "Registration failed") st
| reg_refused :
    register_outcome e body st (fail_with 400 "Email already registered") st
| reg_orphan u :
    u_role u = "student" -> u_id u = next_id st ->
    register_outcome e body st (fail_with 500 "Registration failed") (with_account u st)
| reg_done u skills d0 :
    u_role u = "student" -> u_id u = next_id st ->
    split_skills (studentData_of body !! "skills") = inr skills ->
    cast_doc studentSchema
      (student_fields u (body !! "email") (studentData_of body) skills) = Some d0 ->
    validate studentSchema (apply_defaults e studentSchema d0) = true ->
    register_outcome e body st
      (reply 200 (RegisterOk (jwt_sign e (u_id u) "student") (view_of u)))
      (with_student (new_profile e d0 (with_account u st)) (with_account u st)).

(** Profile properties [register] copies from the body as they are. *)
Definition copied : list string :=
  [ "fullName"; "department"; "school"; "course"; "yearLevel"; "contactNumber";
    "address"; "startDate"; "endDate" ].

(** Lines 102-116 of [register]: the fields are built and the profile is
    created. *)
Definition profile_step (e : env) (u : User) (email : option val) (sd : obj)
  : M obj :=
  fun st => match split_skills (sd !! "skills") with
            | inl ex => (inl ex, st)
            | inr skills => Student_create e (student_fields u email sd skills) st
            end.


Definition without_account (a : oid) (st : db) : db :=
  {| users := remove_first (fun u => N.eqb a (u_id u)) (users st);
     students := students st; next_id := next_id st |}.

Definition without_profile (id : oid) (st : db) : db :=
  {| users := users st;
     students := remove_first (has_id "_id" id) (students st);
     next_id := next_id st |}.

(** ** Splitting and trimming *)

Lemma split_not_nil sep s : split sep s <> [].
Proof.
  destruct s as [|c s]; simpl; [discriminate|].
  destruct (Ascii.eqb c sep); [discriminate|]. destruct (split sep s); discriminate.
Qed.

(** The pieces hold no separator, and joined by it they give the string
    back. *)
Lemma split_pieces sep s : Forall (fun piece => has_char sep piece = false) (split sep s).
Proof.
  induction s as [|c s IH]; simpl; [repeat constructor|].
  destruct (Ascii.eqb c sep) eqn:Hc; [constructor; [reflexivity | assumption]|].
  destruct (split sep s) as [|piece pieces]; [repeat constructor; simpl; now rewrite Hc|].
  inversion IH; subst. constructor; [simpl; now rewrite Hc | assumption].
Qed.

Lemma join_split sep s : join sep (split sep s) = s.
Proof.
  induction s as [|c s IH]; [reflexivity|].
  pose proof (split_not_nil sep s) as Hne. cbn [split].
  destruct (Ascii.eqb_spec c sep) as [->|Hc].
  - destruct (split sep s) as [|piece pieces]; [contradiction|].
    change (join sep (EmptyString :: piece :: pieces))
      with (String sep (join sep (piece :: pieces))).
    now rewrite IH.
  - destruct (split sep s) as [|piece pieces]; [contradiction|].
    destruct pieces as [|q qs].
    + cbn [join] in *. now rewrite IH.
    + change (join sep (String c piece :: q :: qs))
        with (String c (String.append piece (String sep (join sep (q :: qs))))).
      change (join sep (piece :: q :: qs))
        with (String.append piece (String sep (join sep (q :: qs)))) in IH.
      now rewrite IH.
Qed.

Lemma trim_start_clean s : starts_clean (trim_start s).
Proof.
  induction s as [|c s IH]; simpl; [exact I|].
  destruct (is_white_space c) eqn:Hc; [exact IH | exact Hc].
Qed.

Lemma trim_start_of_clean s : starts_clean s -> trim_start s = s.
Proof. destruct s as [|c s]; simpl; [reflexivity | now intros ->]. Qed.

Lemma trim_end_clean s : starts_clean s -> starts_clean (trim_end s).
Proof.
  destruct s as [|c s]; simpl; [trivial|]. intros Hc.
  destruct (trim_end s); [now rewrite Hc | exact Hc].
Qed.

Lemma trim_end_idem s : trim_end (trim_end s) = trim_end s.
Proof.
  induction s as [|c s IH]; [reflexivity|]. cbn [trim_end].
  destruct (trim_end s) as [|k kept] eqn:Hk.
  - destruct (is_white_space c) eqn:Hc; [reflexivity|]. simpl. now rewrite Hc.
  - cbn [trim_end]. cbn [trim_end] in IH. now rewrite IH.
Qed.

Lemma trim_idem s : trim (trim s) = trim s.
Proof.
  unfold trim.
  rewrite (trim_start_of_clean (trim_end (trim_start s)))
    by apply trim_end_clean, trim_start_clean.
  apply trim_end_idem.
Qed.

(** Every skill [register] keeps is trimmed and not empty. *)
Lemma split_skills_trimmed v skills :
  split_skills v = inr skills ->
  Forall (fun skill => trim skill = skill /\ skill <> EmptyString) skills.
Proof.
  destruct v as [[]|]; simpl; intros Heq; simplify_eq.
  apply Forall_forall. intros x Hx.
  apply list_elem_of_filter in Hx as [Hne Hx].
  apply list_elem_of_fmap in Hx as (piece & -> & _).
  split; [apply trim_idem | exact Hne].
Qed.

(** ** Accounts by email *)

Lemma User_findOne_string e email st :
  fails e OpUserFindOne = false ->
  User_findOne e (Some (VStr email)) st = (inr (account_with email st), st).
Proof. intros Hok. unfold User_findOne. now rewrite Hok. Qed.

Lemma account_with_email email st u :
  account_with email st = Some u -> u_email u = email /\ u ∈ users st.
Proof.
  unfold account_with. intros Hf. apply find_some in Hf as [Hin Heq].
  apply String.eqb_eq in Heq. split; [easy | now apply list_elem_of_In].
Qed.

Lemma account_with_exists email st u :
  u ∈ users st -> u_email u = email -> is_Some (account_with email st).
Proof.
  intros Hin Heq. unfold account_with.
  destruct (find _ _) as [v|] eqn:Hf; [eauto|].
  apply list_elem_of_In in Hin.
  pose proof (find_none _ _ Hf _ Hin) as Hno. simpl in Hno.
  rewrite Heq, String.eqb_refl in Hno. discriminate.
Qed.

(** ** Login *)

Lemma login_no_account e body email st :
  fails e OpUserFindOne = false ->
  body !! "email" = Some (VStr email) ->
  account_with email st = None ->
  login e body st = (fail_with 401 "Invalid credentials", st).
Proof.
  intros Hok He Hno. unfold login, try_catch, login_try, bind.
  now rewrite He, User_findOne_string, Hno.
Qed.

Lemma login_mismatch e body email plain st u :
  fails e OpUserFindOne = false ->
  body !! "email" = Some (VStr email) ->
  body !! "password" = Some (VStr plain) ->
  account_with email st = Some u ->
  bcrypt_verify plain (u_password u) = false ->
  login e body st = (fail_with 401 "Invalid credentials", st).
Proof.
  intros Hok He Hp Hu Hv. unfold login, try_catch, login_try, bind.
  rewrite He, User_findOne_string, Hu, Hp by assumption. simpl.
  unfold ret. now rewrite Hv.
Qed.

Lemma login_match e body email plain st u :
  fails e OpUserFindOne = false ->
  body !! "email" = Some (VStr email) ->
  body !! "password" = Some (VStr plain) ->
  account_with email st = Some u ->
  bcrypt_verify plain (u_password u) = true ->
  login e body st =
    (reply 200 (LoginOk (u_role u) (jwt_sign e (u_id u) (u_role u)) (view_of u)), st).
Proof.
  intros Hok He Hp Hu Hv. unfold login, try_catch, login_try, bind.
  rewrite He, User_findOne_string, Hu, Hp by assumption. simpl.
  unfold ret. now rewrite Hv.
Qed.

Lemma bcrypt_compare_rejects v hash st :
  not_a_string v -> bcrypt_compare v hash st = (inl IllegalArguments, st).
Proof. destruct v as [[]|]; simpl; easy. Qed.

(** For string passwords the two refusals of [login] are one response:
    a wrong password for a known email, and an email nobody has. *)
Lemma login_refusals_agree e st known unknown plain u :
  fails e OpUserFindOne = false ->
  account_with known st = Some u ->
  bcrypt_verify plain (u_password u) = false ->
  account_with unknown st = None ->
  login e {[ "email" := VStr known; "password" := VStr plain ]} st =
  login e {[ "email" := VStr unknown; "password" := VStr plain ]} st.
Proof.
  intros Hok Hu Hv Hno.
  rewrite (login_mismatch e _ known plain st u), (login_no_account e _ unknown st);
    try assumption; try reflexivity.
Qed.

(** C2 (the code departs from it): a password that is no string makes
    [bcrypt.compare] throw, so [login] answers 500 "Login failed" when the
    email has an account and 401 "Invalid credentials" when it has none:
    the caller tells the two apart. *)
Theorem login_non_string_password_tells_accounts e st known unknown pw u :
  fails e OpUserFindOne = false ->
  account_with known st = Some u ->
  account_with unknown st = None ->
  not_a_string pw ->
  forall body1 body2,
    body1 !! "email" = Some (VStr known) -> body1 !! "password" = pw ->
    body2 !! "email" = Some (VStr unknown) -> body2 !! "password" = pw ->
    login e body1 st = (fail_with 500 "Login failed", st) /\
    login e body2 st = (fail_with 401 "Invalid credentials", st) /\
    fst (login e body1 st) <> fst (login e body2 st).
Proof.
  intros Hok Hu Hno Hpw body1 body2 He1 Hp1 He2 Hp2.
  assert (L1 : login e body1 st = (fail_with 500 "Login failed", st)).
  { unfold login, try_catch, login_try, bind.
    rewrite He1, User_findOne_string, Hu, Hp1 by assumption.
    now rewrite bcrypt_compare_rejects. }
  assert (L2 : login e body2 st = (fail_with 401 "Invalid credentials", st))
    by now apply (login_no_account e body2 unknown).
  rewrite L1, L2. repeat split. simpl. discriminate.
Qed.

(** ** Object literals, casting, defaults, validation *)

Lemma object_literal_cons k v props k' :
  object_literal ((k, v) :: props) !! k' =
    if String.eqb k k'
    then match v with Some x => Some x | None => object_literal props !! k' end
    else object_literal props !! k'.
Proof.
  unfold object_literal. simpl. fold (object_literal props).
  destruct (String.eqb_spec k k') as [->|Hne].
  - destruct v; [apply lookup_insert_eq | reflexivity].
  - destruct v; [now apply lookup_insert_ne | reflexivity].
Qed.

Lemma object_literal_nil k : object_literal [] !! k = None.
Proof. apply lookup_empty. Qed.


Lemma cast_string s : cast SString (VStr s) = Some (VStr s).
Proof. reflexivity. Qed.


Lemma cast_doc_outside schema o d k :
  cast_doc schema o = Some d -> k ∉ schema.*1 -> d !! k = None.
Proof.
  revert d. induction schema as [|[k2 p2] sch IHs]; intros d Hc Hk.
  - unfold cast_doc in Hc. simplify_eq. apply lookup_empty.
  - unfold cast_doc in Hc. fold cast_doc in Hc.
    apply not_elem_of_cons in Hk as [Hne Hk].
    destruct (cast_doc sch o) as [d3|]; [|discriminate].
    destruct (o !! k2) as [v|].
    + destruct (cast (ptype p2) v); [|discriminate]. simplify_eq.
      rewrite lookup_insert_ne by done. eauto.
    + simplify_eq. eauto.
Qed.

(** A cast document holds, at a schema path, the cast of what the input
    holds there, and nothing elsewhere. *)
Lemma cast_doc_lookup schema o d k p :
  NoDup schema.*1 -> cast_doc schema o = Some d -> (k, p) ∈ schema ->
  d !! k = o !! k ≫= cast (ptype p).
Proof.
  revert d. induction schema as [|[k' p'] rest IH]; intros d Hnd Hcast Hin.
  - inversion Hin.
  - apply NoDup_cons in Hnd as [Hfresh Hnd].
    unfold cast_doc in Hcast. fold cast_doc in Hcast.
    destruct (cast_doc rest o) as [d1|] eqn:Hrest; [|discriminate].
    apply elem_of_cons in Hin as [Heq|Hin].
    + injection Heq as -> ->.
      pose proof (cast_doc_outside rest o d1 k' Hrest Hfresh) as Hd1.
      destruct (o !! k') as [v|]; simpl.
      * destruct (cast (ptype p') v); [|discriminate]. simplify_eq.
        apply lookup_insert_eq.
      * now simplify_eq.
    + assert (k <> k').
      { intros ->. apply Hfresh. apply list_elem_of_fmap. now exists (k', p). }
      rewrite <- (IH d1 Hnd eq_refl Hin).
      destruct (o !! k') as [v|].
      * destruct (cast (ptype p') v); [|discriminate]. simplify_eq.
        now apply lookup_insert_ne.
      * now simplify_eq.
Qed.

Lemma studentSchema_NoDup : NoDup studentSchema.*1.
Proof. apply NoDup_ListNoDup. repeat constructor; simpl; intuition discriminate. Qed.

Lemma studentPaths_NoDup : NoDup studentPaths.*1.
Proof. apply NoDup_ListNoDup. repeat constructor; simpl; intuition discriminate. Qed.

(** Defaults fill the two dates and touch nothing else. *)
Lemma apply_defaults_other e schema d k :
  (forall p, (k, p) ∈ schema -> default_now p = false) ->
  apply_defaults e schema d !! k = d !! k.
Proof.
  unfold apply_defaults. induction schema as [|[k' p'] rest IH]; intros Hk; simpl.
  - reflexivity.
  - assert (IH' : foldr (fun '(k, p) d =>
             if default_now p then
               match d !! k with None => <[k := VDate (now e)]> d | Some _ => d end
             else d) d rest !! k = d !! k).
    { apply IH. intros p Hp. apply Hk. now right. }
    destruct (default_now p') eqn:Hd; [|exact IH'].
    assert (k <> k').
    { intros ->. rewrite (Hk p') in Hd; [discriminate | now left]. }
    destruct (_ !! k'); [exact IH'|].
    now rewrite lookup_insert_ne.
Qed.

Lemma validate_required schema d k p :
  validate schema d = true -> (k, p) ∈ schema -> required p = true ->
  required_ok (d !! k) = true.
Proof.
  unfold validate. intros Hv Hin Hreq.
  rewrite forallb_forall in Hv. apply list_elem_of_In in Hin.
  specialize (Hv _ Hin). simpl in Hv. now rewrite Hreq in Hv.
Qed.

(** ** Registration, step by step *)

Lemma Student_create_inv e fields st r st' :
  Student_create e fields st = (r, st') ->
  (exists ex, r = inl ex /\ st' = st) \/
  (exists d0, cast_doc studentSchema fields = Some d0 /\
              validate studentSchema (apply_defaults e studentSchema d0) = true /\
              fails e OpStudentCreate = false /\
              r = inr (new_profile e d0 st) /\
              st' = with_student (new_profile e d0 st) st).
Proof.
  unfold Student_create. intros Hrun.
  destruct (cast_doc studentSchema fields) as [d0|]; [|left; simplify_eq; eauto].
  destruct (validate studentSchema _) eqn:Hv; simpl in Hrun; [|left; simplify_eq; eauto].
  destruct (fails e OpStudentCreate) eqn:Hf; [left; simplify_eq; eauto|].
  right. exists d0. simplify_eq. auto.
Qed.

Lemma register_taken e body email st u :
  fails e OpUserFindOne = false ->
  body !! "email" = Some (VStr email) ->
  account_with email st = Some u ->
  register e body st = (fail_with 400 "Email already registered", st).
Proof.
  intros Hok He Hu. unfold register, try_catch, register_try, bind.
  now rewrite He, User_findOne_string, Hu.
Qed.

(** Past the creation of the account, [register] is the profile step on
    the store that already holds the account. *)
Lemma register_profile_step e body email plain st :
  fails e OpUserFindOne = false ->
  fails e OpUserCreate = false ->
  body !! "email" = Some (VStr email) ->
  body !! "password" = Some (VStr plain) ->
  account_with email st = None ->
  let u := new_account e email plain st in
  register e body st =
    match split_skills (studentData_of body !! "skills") with
    | inl _ => (fail_with 500 "Registration failed", with_account u st)
    | inr skills =>
        match Student_create e
                (student_fields u (Some (VStr email)) (studentData_of body) skills)
                (with_account u st) with
        | (inl _, st') => (fail_with 500 "Registration failed", st')
        | (inr _, st') =>
            (reply 200 (RegisterOk (jwt_sign e (u_id u) "student") (view_of u)), st')
        end
    end.
Proof.
  intros Hok Hc He Hp Hno u. unfold register, try_catch, register_try, bind.
  rewrite He, User_findOne_string, Hno, Hp by assumption. simpl.
  unfold User_create. rewrite Hc. fold (studentData_of body).
  fold (new_account e email plain st). fold u. fold (with_account u st).
  unfold lift.
  destruct (split_skills (studentData_of body !! "skills")) as [ex|skills]; [reflexivity|].
  destruct (Student_create e _ (with_account u st)) as [[ex|d] st']; reflexivity.
Qed.

(** C3: when an account with the email exists, [register] answers
    "Email already registered" (status 400) and leaves both collections
    as they were, so no second account with that email appears. *)
Theorem register_existing_email e body email st u :
  fails e OpUserFindOne = false ->
  body !! "email" = Some (VStr email) ->
  u ∈ users st -> u_email u = email ->
  register e body st = (fail_with 400 "Email already registered", st).
Proof.
  intros Hok He Hin Heq.
  destruct (account_with_exists email st u Hin Heq) as [v Hv].
  now apply (register_taken e body email st v).
Qed.

(** What a successful registration did. *)
Lemma register_success_inv e body email st tok v st' :
  body !! "email" = Some (VStr email) ->
  register e body st = (reply 200 (RegisterOk tok v), st') ->
  exists plain skills d0,
    let u := new_account e email plain st in
    body !! "password" = Some (VStr plain) /\
    fails e OpUserFindOne = false /\ fails e OpUserCreate = false /\
    fails e OpStudentCreate = false /\
    account_with email st = None /\
    split_skills (studentData_of body !! "skills") = inr skills /\
    cast_doc studentSchema
      (student_fields u (Some (VStr email)) (studentData_of body) skills) = Some d0 /\
    validate studentSchema (apply_defaults e studentSchema d0) = true /\
    tok = jwt_sign e (u_id u) "student" /\ v = view_of u /\
    st' = with_student (new_profile e d0 (with_account u st)) (with_account u st).
Proof.
  intros He Hrun.
  destruct (fails e OpUserFindOne) eqn:Hf1.
  { unfold register, try_catch, register_try, bind, User_findOne in Hrun.
    rewrite Hf1 in Hrun. discriminate. }
  destruct (account_with email st) as [w|] eqn:Hacc.
  { rewrite (register_taken e body email st w) in Hrun by assumption. discriminate. }
  destruct (body !! "password") as [pw|] eqn:Hp.
  2:{ unfold register, try_catch, register_try, bind in Hrun.
      rewrite He, User_findOne_string, Hacc, Hp in Hrun by assumption. discriminate. }
  assert (exists plain, pw = VStr plain) as [plain ->].
  { unfold register, try_catch, register_try, bind in Hrun.
    rewrite He, User_findOne_string, Hacc, Hp in Hrun by assumption.
    destruct pw; try discriminate. eauto. }
  destruct (fails e OpUserCreate) eqn:Hf2.
  { unfold register, try_catch, register_try, bind in Hrun.
    rewrite He, User_findOne_string, Hacc, Hp in Hrun by assumption.
    simpl in Hrun. unfold User_create in Hrun. rewrite Hf2 in Hrun. discriminate. }
  rewrite (register_profile_step e body email plain st) in Hrun by assumption.
  destruct (split_skills _) as [ex|skills] eqn:Hsk; [discriminate|].
  destruct (Student_create e _ _) as [[ex|d] st2] eqn:Hsc; [discriminate|].
  apply Student_create_inv in Hsc as [(ex & Hr & _)|(d0 & Hc & Hv & Hf3 & Hr & Hst)];
    [discriminate|].
  exists plain, skills, d0. cbv zeta.
  injection Hrun as Htok Hview Hst'. subst st2.
  repeat (split; [first [assumption | reflexivity | now symmetry]|]).
  now symmetry.
Qed.

Lemma account_with_new email st u d :
  account_with email st = None -> u_email u = email ->
  account_with email (with_student d (with_account u st)) = Some u.
Proof.
  unfold account_with, with_student, with_account. simpl. intros Hno Heq.
  induction (users st) as [|x l IH]; simpl in *.
  - now rewrite Heq, String.eqb_refl.
  - destruct (String.eqb email (u_email x)); [discriminate | auto].
Qed.

(** C1: after a successful [register], [login] with the same email and
    password succeeds on the resulting store, returns the same public
    view (id, email, role) and a token whose claims carry the same
    accountId and role as the token issued at registration. *)
Theorem login_after_register e1 e2 body body2 email st st' tok v :
  body !! "email" = Some (VStr email) ->
  body2 !! "email" = body !! "email" ->
  body2 !! "password" = body !! "password" ->
  register e1 body st = (reply 200 (RegisterOk tok v), st') ->
  fails e2 OpUserFindOne = false ->
  exists tok2 c c2,
    login e2 body2 st' = (reply 200 (LoginOk (v_role v) tok2 v), st') /\
    jwt_decode tok = Some c /\ jwt_decode tok2 = Some c2 /\
    c_userId c2 = c_userId c /\ c_role c2 = c_role c /\
    c_userId c = v_id v /\ c_role c = v_role v.
Proof.
  intros He He2 Hp2 Hrun Hok.
  destruct (register_success_inv e1 body email st tok v st' He Hrun)
    as (plain & skills & d0 & Hp & _ & _ & _ & Hno & _ & _ & _ & Htok & Hv & Hst).
  set (u := new_account e1 email plain st) in *.
  exists (jwt_sign e2 (u_id u) (u_role u)).
  eexists _, _. split; [|split; [|split]].
  - rewrite Hst, Hv.
    apply (login_match e2 body2 email plain); try congruence.
    + now apply account_with_new.
    + apply bcrypt_verify_digest.
  - rewrite Htok. apply jwt_decode_encode.
  - apply jwt_decode_encode.
  - rewrite Hv. simpl. auto.
Qed.

(** ** Admin bootstrap *)

Lemma account_with_appended email st u :
  account_with email st = None -> u_email u = email ->
  account_with email (with_account u st) = Some u.
Proof. intros Hno Heq. now apply (account_with_new email st u ∅). Qed.

(** Running the bootstrap again on its own result changes nothing. *)
Lemma initializeAdmin_idempotent e1 e2 st :
  fails e1 OpUserFindOne = false -> fails e1 OpUserCreate = false ->
  fails e2 OpUserFindOne = false ->
  initializeAdmin e2 (initializeAdmin e1 st) = initializeAdmin e1 st.
Proof.
  intros Hf1 Hc1 Hf2.
  assert (Hrun : forall e s, fails e OpUserFindOne = false ->
            is_Some (account_with "admin@ojt.com" s) -> initializeAdmin e s = s).
  { intros e s Hf [w Hw]. unfold initializeAdmin, bind.
    now rewrite User_findOne_string, Hw. }
  destruct (account_with "admin@ojt.com" st) as [w|] eqn:Hw.
  - rewrite (Hrun e1 st) by eauto. apply Hrun; eauto.
  - assert (Hnew : initializeAdmin e1 st =
              with_account {| u_id := next_id st; u_email := "admin@ojt.com";
                              u_password := bcrypt_digest "admin123" (salt e1);
                              u_role := "admin" |} st).
    { unfold initializeAdmin, bind. rewrite User_findOne_string, Hw by assumption.
      simpl. unfold User_create. now rewrite Hc1. }
    rewrite Hnew. apply Hrun; [assumption|].
    rewrite account_with_appended; eauto.
Qed.

(** ** What [register] reads of the body *)

Lemma studentData_lookup body k :
  k <> "email" -> k <> "password" -> studentData_of body !! k = body !! k.
Proof. intros. unfold studentData_of. now rewrite !lookup_delete_ne. Qed.

Lemma register_reads_only e b1 b2 st :
  (forall k, k ∈ register_reads -> b1 !! k = b2 !! k) ->
  register e b1 st = register e b2 st.
Proof.
  intros Hagree.
  assert (Hk : forall k, In k register_reads -> b1 !! k = b2 !! k).
  { intros k Hin. apply Hagree. now apply list_elem_of_In. }
  unfold register, register_try, student_fields.
  fold (studentData_of b1). fold (studentData_of b2).
  rewrite !studentData_lookup by discriminate.
  rewrite !(Hk "email"), !(Hk "password"), !(Hk "fullName"), !(Hk "department"),
    !(Hk "project"), !(Hk "skills"), !(Hk "school"), !(Hk "course"),
    !(Hk "yearLevel"), !(Hk "contactNumber"), !(Hk "address"),
    !(Hk "startDate"), !(Hk "endDate") by (simpl; tauto).
  reflexivity.
Qed.

Lemma register_ignores e body k x st :
  k ∉ register_reads -> register e (<[k := x]> body) st = register e body st.
Proof.
  intros Hk. apply register_reads_only. intros k' Hin.
  apply lookup_insert_ne. intros ->. contradiction.
Qed.

Lemma register_outcomes e body st r st' :
  register e body st = (r, st') -> register_outcome e body st r st'.
Proof.
  unfold register, try_catch, register_try, bind. intros Hrun.
  destruct (User_findOne e (body !! "email") st) as [[ex|found] st1] eqn:Hfind.
  { unfold User_findOne in Hfind.
    destruct (fails e OpUserFindOne); [|destruct (email_filter _)];
      simplify_eq; constructor. }
  assert (st1 = st) as ->.
  { unfold User_findOne in Hfind.
    destruct (fails e OpUserFindOne); [|destruct (email_filter _)]; now simplify_eq. }
  destruct found as [w|]; [unfold ret in Hrun; simplify_eq; constructor|].
  destruct (bcrypt_hash e (body !! "password") st) as [[ex|hashed] st1] eqn:Hhash.
  { unfold bcrypt_hash in Hhash.
    destruct (body !! "password") as [[]|]; unfold ret, throw in Hhash;
      simplify_eq; constructor. }
  assert (st1 = st) as ->.
  { unfold bcrypt_hash in Hhash.
    destruct (body !! "password") as [[]|]; unfold ret, throw in Hhash; now simplify_eq. }
  destruct (User_create e (body !! "email") hashed "student" st) as [[ex|u] st1] eqn:Hnew.
  { unfold User_create in Hnew.
    destruct (match body !! "email" with Some (VStr s) => Some s | _ => _ end);
      [destruct (fails e OpUserCreate)|]; simplify_eq; constructor. }
  assert (u_role u = "student" /\ u_id u = next_id st /\ st1 = with_account u st)
    as (Hrole & Hid & ->).
  { unfold User_create in Hnew.
    destruct (match body !! "email" with Some (VStr s) => Some s | _ => _ end);
      [destruct (fails e OpUserCreate)|]; simplify_eq. auto. }
  unfold lift in Hrun. fold (studentData_of body) in Hrun.
  destruct (split_skills _) as [ex|skills] eqn:Hsk; [simplify_eq; now constructor|].
  destruct (Student_create e _ _) as [[ex|d] st2] eqn:Hsc.
  - apply Student_create_inv in Hsc as [(? & ? & ->)|(? & _ & _ & _ & ? & _)];
      simplify_eq. now constructor.
  - apply Student_create_inv in Hsc as [(? & ? & _)|(d0 & Hc & Hv & _ & ? & ->)];
      simplify_eq. unfold ret in Hrun. simplify_eq. rewrite Hrole.
    now apply (reg_done e body st u skills d0).
Qed.

(** C10: whatever the body holds, an account [register] creates has role
    "student", the account view and the claims of the token it returns
    carry role "student", and a [role] property of the body changes
    nothing of what [register] does. *)
Theorem register_role_is_student e body st r st' :
  register e body st = (r, st') ->
  (users st' = users st \/
   exists u, users st' = users st ++ [u] /\ u_role u = "student") /\
  (forall tok v, json r = RegisterOk tok v ->
     v_role v = "student" /\
     exists c, jwt_decode tok = Some c /\ c_role c = "student" /\ c_userId c = v_id v) /\
  (forall x, register e (<["role" := x]> body) st = (r, st')).
Proof.
  intros Hrun. split; [|split].
  - destruct (register_outcomes e body st r st' Hrun); simpl; eauto.
  - intros tok v Hjson.
    destruct (register_outcomes e body st r st' Hrun)
      as [| |u Hrole Hid|u skills d0 Hrole Hid _ _ _];
      simpl in Hjson; try discriminate.
    injection Hjson as <- <-. simpl. split; [assumption|].
    unfold jwt_sign. eexists. split; [apply jwt_decode_encode|]. simpl. auto.
  - intros x. rewrite register_ignores; [assumption|].
    unfold register_reads. rewrite list_elem_of_In. simpl. intuition discriminate.
Qed.

(** ** The profile [register] stores *)

Ltac read_field :=
  unfold student_fields;
  repeat (rewrite object_literal_cons; simpl String.eqb);
  rewrite ?object_literal_nil.



Lemma student_fields_userId u email sd skills :
  student_fields u email sd skills !! "userId" = Some (VId (u_id u)).
Proof. now read_field. Qed.

Lemma student_fields_copied u email sd skills k :
  In k copied -> student_fields u email sd skills !! k = sd !! k.
Proof.
  simpl. intros Hk.
  repeat (destruct Hk as [<-|Hk]; [read_field; now destruct (sd !! _)|]).
  contradiction.
Qed.

Lemma new_profile_lookup e d0 st k :
  k <> "_id" -> k <> "createdAt" -> k <> "updatedAt" ->
  new_profile e d0 st !! k = d0 !! k.
Proof.
  intros Hk1 Hk2 Hk3. unfold new_profile. rewrite lookup_insert_ne by done.
  apply apply_defaults_other. intros p Hp.
  apply list_elem_of_In in Hp. simpl in Hp.
  repeat (destruct Hp as [Hp|Hp]; [injection Hp as <- <-; try reflexivity; congruence|]).
  contradiction.
Qed.

Lemma split_skills_inv v skills :
  split_skills v = inr skills ->
  exists s, v = Some (VStr s) /\ skills = filter truthy (trim <$> split "," s).
Proof. destruct v as [[]|]; simpl; intros; simplify_eq. eauto. Qed.




(** ** Reading a profile *)

Lemma has_id_ref k i d : has_id k i d = true <-> ref k d = Some i.
Proof.
  unfold has_id, ref. destruct (d !! k) as [[]|]; try (split; discriminate).
  rewrite N.eqb_eq. split; [now intros -> | now intros [= ->]].
Qed.

Lemma getStudent_found e a st d :
  fails e OpStudentFindOne = false ->
  find (has_id "userId" a) (students st) = Some d ->
  getStudent e a st = (reply 200 (StudentOk d), st).
Proof.
  intros Hok Hf. unfold getStudent, try_catch, bind, Student_findOne.
  now rewrite Hok, Hf.
Qed.

Lemma getStudent_none e a st :
  fails e OpStudentFindOne = false ->
  Forall (fun d => ref "userId" d <> Some a) (students st) ->
  getStudent e a st = (fail_with 404 "Student not found", st).
Proof.
  intros Hok Hall. unfold getStudent, try_catch, bind, Student_findOne.
  rewrite Hok. destruct (find _ _) as [d|] eqn:Hf; [|reflexivity].
  apply find_some in Hf as [Hin Hid]. apply has_id_ref in Hid.
  rewrite Forall_forall in Hall. apply list_elem_of_In in Hin.
  now destruct (Hall d Hin).
Qed.

(** ** The orphaned account *)

Lemma profile_step_fails_keeps e u email sd st ex st' :
  profile_step e u email sd st = (inl ex, st') -> st' = st.
Proof.
  unfold profile_step. destruct (split_skills _); [now intros [= _ ->]|].
  intros Hsc. apply Student_create_inv in Hsc as [(? & _ & ->)|(? & _ & _ & _ & ? & _)];
    [reflexivity | discriminate].
Qed.

(** C5: when the account is created and the profile step then throws,
    [register] answers 500 "Registration failed" and the account stays:
    the store is the old one plus that account, no profile is linked to
    it, and registering the same email again is refused as taken. *)
Theorem register_orphans_account e body email plain st ex st1 :
  consistent st ->
  fails e OpUserFindOne = false -> fails e OpUserCreate = false ->
  body !! "email" = Some (VStr email) ->
  body !! "password" = Some (VStr plain) ->
  account_with email st = None ->
  let u := new_account e email plain st in
  profile_step e u (Some (VStr email)) (studentData_of body) (with_account u st)
    = (inl ex, st1) ->
  let st' := with_account u st in
  register e body st = (fail_with 500 "Registration failed", st') /\
  users st' = users st ++ [u] /\ students st' = students st /\
  (forall e2, fails e2 OpStudentFindOne = false ->
     getStudent e2 (u_id u) st' = (fail_with 404 "Student not found", st')) /\
  (forall e2 body2, fails e2 OpUserFindOne = false ->
     body2 !! "email" = Some (VStr email) ->
     register e2 body2 st' = (fail_with 400 "Email already registered", st')).
Proof.
  intros Hcons Hf1 Hf2 He Hp Hno u Hstep st'.
  split; [|split; [reflexivity|split; [reflexivity|split]]].
  - rewrite (register_profile_step e body email plain st) by assumption.
    fold u. fold st'. unfold profile_step in Hstep. fold st' in Hstep.
    destruct (split_skills _) as [ex'|skills]; [reflexivity|].
    rewrite Hstep.
    apply Student_create_inv in Hstep as [(? & _ & ->)|(? & _ & _ & _ & ? & _)];
      [reflexivity | discriminate].
  - intros e2 Hok. apply getStudent_none; [assumption|].
    unfold st', with_account. simpl.
    eapply Forall_impl; [apply (links_known st Hcons)|].
    intros d Hd Heq. specialize (Hd _ Heq). lia.
  - intros e2 body2 Hok He2.
    destruct (account_with_exists email st' u) as [w Hw].
    + unfold st', with_account. simpl. apply elem_of_app. right. now left.
    + reflexivity.
    + now apply (register_taken e2 body2 email st' w).
Qed.

(** ** Updating a profile *)

Lemma fmap_replace_first {A B} (f : A -> B) (p : A -> bool) (y x : A) (l : list A) :
  find p l = Some x -> f y = f x ->
  f <$> replace_first p y l = f <$> l.
Proof.
  induction l as [|z l IH]; cbn [find replace_first]; [discriminate|].
  destruct (p z); intros Hf Hy.
  - simplify_eq. rewrite !fmap_cons. now rewrite Hy.
  - rewrite !fmap_cons. now rewrite IH.
Qed.

Lemma plain_updatedAt e body : plain body -> plain (<["updatedAt" := VDate (now e)]> body).
Proof. intros Hp. now apply map_Forall_insert_2. Qed.




(** C8 (as the code has it): an update whose body is of plain property
    names and has no [createdAt] leaves the [createdAt] of every stored
    profile as it was, whatever the outcome of the request. *)
Theorem updateStudent_keeps_createdAt e userId body st :
  plain body ->
  body !! "createdAt" = None ->
  (fun d : obj => d !! "createdAt") <$> students (snd (updateStudent e userId body st)) =
  (fun d : obj => d !! "createdAt") <$> students st.
Proof.
  intros Hp Hnone. unfold updateStudent, try_catch, bind, Student_findOneAndUpdate.
  unfold prepare_update.
  destruct (decide (plain _)) as [_|Hnp]; [|destruct Hnp; now apply plain_updatedAt].
  destruct (cast_doc studentPaths _) as [set|] eqn:Hc; [|reflexivity].
  destruct (fails e OpStudentFindOneAndUpdate); [reflexivity|].
  destruct (find _ _) as [d|] eqn:Hf; [|reflexivity].
  destruct (keeps_id set d); [|reflexivity]. simpl.
  apply (fmap_replace_first _ _ _ d); [assumption|].
  apply lookup_union_r.
  rewrite (cast_doc_lookup studentPaths _ set "createdAt" (path SDate false true)
             studentPaths_NoDup Hc) by (apply list_elem_of_In; simpl; tauto).
  now rewrite lookup_insert_ne, Hnone.
Qed.

(** ** Deleting a student *)

Section RemoveFirst.
Context {A B : Type} (g : A -> option B) (p : A -> bool).


Lemma remove_first_Forall (P : A -> Prop) l :
  Forall P l -> Forall P (remove_first p l).
Proof.
  induction 1 as [|x l Hx Hl IH]; simpl; [constructor|].
  destruct (p x); [assumption | now constructor].
Qed.

Lemma omap_cons_NoDup x l :
  NoDup (omap g (x :: l)) ->
  NoDup (omap g l) /\ forall b, g x = Some b -> b ∉ omap g l.
Proof.
  simpl. destruct (g x) as [b|].
  - intros Hnd. apply NoDup_cons in Hnd as [Hb Hnd].
    split; [assumption|]. now intros ? [= <-].
  - intros Hnd. split; [assumption | discriminate].
Qed.

Lemma remove_first_NoDup l :
  NoDup (omap g l) -> NoDup (omap g (remove_first p l)).
Proof.
  induction l as [|x l IH]; [trivial|].
  intros Hnd. destruct (omap_cons_NoDup x l Hnd) as [Hl Hx].
  cbn [remove_first]. destruct (p x); [assumption|].
  simpl in *. destruct (g x) as [b|]; [|auto].
  apply NoDup_cons. split; [|auto].
  intros Hin. apply (Hx b eq_refl).
  apply list_elem_of_omap in Hin as (y & Hy & Hgy).
  apply list_elem_of_omap. exists y. split; [|assumption].
  clear -Hy. induction l as [|z l IHl]; simpl in Hy; [inversion Hy|].
  destruct (p z); [now right|].
  apply elem_of_cons in Hy as [->|Hy]; [now left | right; auto].
Qed.

(** Once the record a lookup found is removed, no record is left with
    its key. *)
Lemma remove_first_gone l x a :
  NoDup (omap g l) -> find p l = Some x -> g x = Some a ->
  Forall (fun y => g y <> Some a) (remove_first p l).
Proof.
  induction l as [|z l IH]; [discriminate|].
  intros Hnd Hf Hg. destruct (omap_cons_NoDup z l Hnd) as [Hl Hz].
  cbn [find remove_first] in *. destruct (p z) eqn:Hpz.
  - simplify_eq. apply Forall_forall. intros y Hy Hgy.
    apply (Hz a Hg). apply list_elem_of_omap. eauto.
  - constructor; [|auto].
    intros Hgz. apply (Hz a Hgz). apply list_elem_of_omap.
    exists x. split; [|assumption].
    apply find_some in Hf as [Hin _]. now apply list_elem_of_In.
Qed.

End RemoveFirst.

Lemma deleteStudent_unfold e studentId st :
  fails e OpStudentFindById = false ->
  deleteStudent e studentId st =
    match find (has_id "_id" studentId) (students st) with
    | None => (fail_with 404 "Student not found", st)
    | Some d =>
        if fails e OpUserFindByIdAndDelete then (fail_with 500 "Delete failed", st)
        else
          let st1 := match d !! "userId" with
                     | Some (VId a) => without_account a st
                     | _ => st
                     end in
          if fails e OpStudentFindByIdAndDelete
          then (fail_with 500 "Delete failed", st1)
          else (reply 200 Done, without_profile studentId st1)
    end.
Proof.
  intros Hok.
  unfold deleteStudent, try_catch, bind, Student_findById, User_findByIdAndDelete,
    Student_findByIdAndDelete.
  rewrite Hok. destruct (find _ _) as [d|]; [|reflexivity].
  destruct (fails e OpUserFindByIdAndDelete); [reflexivity|].
  destruct (d !! "userId") as [[]|]; destruct (fails e OpStudentFindByIdAndDelete);
    reflexivity.
Qed.


(** ** The data model is kept *)

Lemma consistent_empty : consistent empty_db.
Proof. split; simpl; constructor. Qed.

Lemma consistent_with_account u st :
  consistent st -> u_id u = next_id st -> consistent (with_account u st).
Proof.
  intros [Hk Hu Hpk Hpu Hl Ho] Hid. split; simpl; try assumption.
  - apply Forall_app. split.
    + eapply Forall_impl; [exact Hk|]. simpl. intros; lia.
    + constructor; [lia | constructor].
  - rewrite fmap_app. apply NoDup_app. split; [assumption|]. split.
    + intros i Hin Hin'. apply list_elem_of_fmap in Hin as (w & -> & Hw).
      rewrite Forall_forall in Hk. specialize (Hk w Hw). simpl in Hin'.
      apply list_elem_of_singleton in Hin'. lia.
    + simpl. apply NoDup_singleton.
  - eapply Forall_impl; [exact Hpk|]. simpl. intros d (i & ? & ?). exists i. split; [easy|lia].
  - eapply Forall_impl; [exact Hl|]. simpl. intros d Hd a Ha. specialize (Hd a Ha). lia.
Qed.

Lemma NoDup_omap_snoc {A} (g : A -> option oid) (l : list A) (x : A) :
  NoDup (omap g l) -> (forall b, g x = Some b -> b ∉ omap g l) ->
  NoDup (omap g (l ++ [x])).
Proof.
  intros Hnd Hx. rewrite omap_app. simpl. destruct (g x) as [b|].
  - apply NoDup_app. split; [assumption|]. split; [|apply NoDup_singleton].
    intros i Hin Hin'. apply list_elem_of_singleton in Hin'. subst i.
    now apply (Hx b).
  - now rewrite app_nil_r.
Qed.

Lemma consistent_with_student d st a :
  consistent st ->
  ref "_id" d = Some (next_id st) -> ref "userId" d = Some a ->
  (a < next_id st)%N -> a ∉ omap (ref "userId") (students st) ->
  consistent (with_student d st).
Proof.
  intros [Hk Hu Hpk Hpu Hl Ho] Hid Hlink Hlt Hnew. split; simpl; try assumption.
  - eapply Forall_impl; [exact Hk|]. simpl. intros; lia.
  - apply Forall_app. split.
    + eapply Forall_impl; [exact Hpk|]. simpl. intros x (i & ? & ?). exists i. split; [easy|lia].
    + constructor; [|constructor]. exists (next_id st). split; [assumption|lia].
  - apply NoDup_omap_snoc; [assumption|]. intros b Hb Hin.
    rewrite Hid in Hb. injection Hb as <-.
    apply list_elem_of_omap in Hin as (x & Hx & Hrx).
    rewrite Forall_forall in Hpk. destruct (Hpk x Hx) as (i & Hi & ?).
    rewrite Hrx in Hi. injection Hi as <-. lia.
  - apply Forall_app. split.
    + eapply Forall_impl; [exact Hl|]. simpl. intros x Hx b Hb. specialize (Hx b Hb). lia.
    + constructor; [|constructor]. intros b Hb. rewrite Hlink in Hb.
      injection Hb as <-. lia.
  - apply NoDup_omap_snoc; [assumption|]. intros b Hb.
    rewrite Hlink in Hb. now injection Hb as <-.
Qed.

Lemma new_profile_refs e u email sd skills d0 st :
  cast_doc studentSchema (student_fields u email sd skills) = Some d0 ->
  ref "_id" (new_profile e d0 st) = Some (next_id st) /\
  ref "userId" (new_profile e d0 st) = Some (u_id u).
Proof.
  intros Hc. unfold ref. split.
  - unfold new_profile. now rewrite lookup_insert_eq.
  - rewrite new_profile_lookup by discriminate.
    rewrite (cast_doc_lookup _ _ _ "userId" (path SObjectId true false)
               studentSchema_NoDup Hc) by (apply list_elem_of_In; simpl; tauto).
    now rewrite student_fields_userId.
Qed.

(** [register] keeps the data model, whatever its outcome. *)
Lemma register_consistent e body st :
  consistent st -> consistent (snd (register e body st)).
Proof.
  intros Hcons. destruct (register e body st) as [r st'] eqn:Hrun. simpl.
  apply register_outcomes in Hrun.
  destruct Hrun as [| |u Hrole Hid|u skills d0 Hrole Hid Hsk Hc Hv]; try assumption.
  - now apply consistent_with_account.
  - destruct (new_profile_refs e u _ _ _ d0 (with_account u st) Hc) as [Hr1 Hr2].
    apply (consistent_with_student _ _ (u_id u)).
    + now apply consistent_with_account.
    + assumption.
    + assumption.
    + simpl. lia.
    + simpl. intros Hin. apply list_elem_of_omap in Hin as (x & Hx & Hrx).
      pose proof (links_known st Hcons) as Hl. rewrite Forall_forall in Hl.
      specialize (Hl x Hx _ Hrx). lia.
Qed.

Lemma consistent_without_account a st : consistent st -> consistent (without_account a st).
Proof.
  intros [Hk Hu Hpk Hpu Hl Ho]. split; simpl; try assumption.
  - now apply remove_first_Forall.
  - rewrite list_fmap_alt. apply remove_first_NoDup. now rewrite <- list_fmap_alt.
Qed.

Lemma consistent_without_profile id st : consistent st -> consistent (without_profile id st).
Proof.
  intros [Hk Hu Hpk Hpu Hl Ho]. split; simpl; try assumption.
  - now apply remove_first_Forall.
  - now apply remove_first_NoDup.
  - now apply remove_first_Forall.
  - now apply remove_first_NoDup.
Qed.

(** [deleteStudent] keeps the data model, whatever its outcome. *)
Lemma deleteStudent_consistent e studentId st :
  consistent st -> consistent (snd (deleteStudent e studentId st)).
Proof.
  intros Hcons. destruct (fails e OpStudentFindById) eqn:Hf.
  - unfold deleteStudent, try_catch, bind, Student_findById. now rewrite Hf.
  - rewrite deleteStudent_unfold by assumption.
    destruct (find _ _) as [d|]; [|assumption].
    destruct (fails e OpUserFindByIdAndDelete); [assumption|].
    assert (Hst1 : consistent match d !! "userId" with
                              | Some (VId a) => without_account a st
                              | _ => st
                              end).
    { destruct (d !! "userId") as [[]|]; try assumption.
      now apply consistent_without_account. }
    cbv zeta. destruct (fails e OpStudentFindByIdAndDelete); simpl; [assumption|].
    now apply consistent_without_profile.
Qed.

Lemma login_keeps_store e body st : snd (login e body st) = st.
Proof.
  unfold login, try_catch, login_try, bind, User_findOne.
  destruct (fails e OpUserFindOne); [reflexivity|].
  destruct (email_filter _); [|reflexivity].
  destruct (find _ _); [|reflexivity].
  unfold bcrypt_compare. destruct (body !! "password") as [[]|]; try reflexivity.
  unfold ret. now destruct (negb _).
Qed.

Lemma keeps_id_ref set d : keeps_id set d = true -> ref "_id" (set ∪ d) = ref "_id" d.
Proof.
  unfold keeps_id, ref. destruct (set !! "_id") as [v|] eqn:Hs.
  - destruct v; try discriminate. intros Hid. apply has_id_ref in Hid.
    rewrite (lookup_union_Some_l set d _ _ Hs). unfold ref in Hid.
    destruct (d !! "_id") as [[]|]; congruence.
  - intros _. now rewrite lookup_union_r.
Qed.

Lemma omap_of_fmap {A B} (g : A -> option B) (l l' : list A) :
  g <$> l' = g <$> l -> omap g l' = omap g l.
Proof.
  revert l'. induction l as [|x l IH]; intros [|y l'] Heq; try discriminate.
  - reflexivity.
  - rewrite !fmap_cons in Heq. injection Heq as Hy Hl.
    change (omap g (y :: l')) with
      (match g y with Some b => b :: omap g l' | None => omap g l' end).
    change (omap g (x :: l)) with
      (match g x with Some b => b :: omap g l | None => omap g l end).
    now rewrite Hy, (IH l' Hl).
Qed.

(** [updateStudent] keeps the data model when the body is of plain
    property names and leaves the account reference alone. *)
Lemma updateStudent_consistent e userId body st :
  plain body -> body !! "userId" = None ->
  consistent st -> consistent (snd (updateStudent e userId body st)).
Proof.
  intros Hp Hnone Hcons.
  unfold updateStudent, try_catch, bind, Student_findOneAndUpdate, prepare_update.
  destruct (decide (plain _)) as [_|Hnp]; [|destruct Hnp; now apply plain_updatedAt].
  destruct (cast_doc studentPaths _) as [set|] eqn:Hc; [|assumption].
  destruct (fails e OpStudentFindOneAndUpdate); [assumption|].
  destruct (find _ _) as [d|] eqn:Hf; [|assumption].
  destruct (keeps_id set d) eqn:Hid; [|assumption]. simpl.
  assert (H1' : ref "_id" (set ∪ d) = ref "_id" d) by now apply keeps_id_ref.
  assert (H2' : ref "userId" (set ∪ d) = ref "userId" d).
  { unfold ref. rewrite lookup_union_r; [reflexivity|].
    rewrite (cast_doc_lookup studentPaths _ set "userId" (path SObjectId true false)
               studentPaths_NoDup Hc) by (apply list_elem_of_In; simpl; tauto).
    now rewrite lookup_insert_ne, Hnone. }
  pose proof (fmap_replace_first (ref "_id") _ _ d _ Hf H1') as E1.
  pose proof (fmap_replace_first (ref "userId") _ _ d _ Hf H2') as E2.
  destruct Hcons as [Hk Hu Hpk Hpu Hl Ho].
  pose proof (fun k => omap_of_fmap (ref k)) as Homap.
  split; simpl; try assumption.
  - apply (Forall_fmap (ref "_id") (fun o => exists i, o = Some i /\ (i < next_id st)%N)).
    rewrite E1. now apply Forall_fmap.
  - now rewrite (Homap "_id" _ _ E1).
  - apply (Forall_fmap (ref "userId") (fun o => forall a, o = Some a -> (a < next_id st)%N)).
    rewrite E2. now apply Forall_fmap.
  - now rewrite (Homap "userId" _ _ E2).
Qed.

End Properties.

(** * The remaining routes, and how the routes compose *)

Section Routes.

Context `{Bcrypt} `{Jwt} `{Mongoose}.

(** ** [GET /api/students] *)

(** The creation date a profile carries. *)
Definition created (d : obj) : option Z :=
  match d !! "createdAt" with Some (VDate t) => Some t | _ => None end.

(** The order of [sort({ createdAt: -1 })]: later dates first, a profile
    without a date after every dated one. *)
Definition newer_or_same (a b : obj) : bool :=
  match created a, created b with
  | Some x, Some y => y <=? x
  | Some _, None => true
  | None, Some _ => false
  | None, None => true
  end.

Fixpoint insert_by_date (x : obj) (l : list obj) : list obj :=
  match l with
  | [] => [x]
  | y :: rest => if newer_or_same x y then x :: l else y :: insert_by_date x rest
  end.

(** [Student.find().sort({ createdAt: -1 })]. Among profiles of the same
    date, and among profiles without a date, the server leaves the order
    open; here they keep the order of the collection, and nothing below
    depends on that choice. *)
Definition newest_first (l : list obj) : list obj := foldr insert_by_date [] l.

Inductive listing :=
| Students (students : list obj)
| ListFailure (error : string).

Record list_response := { list_status : Z; list_json : listing }.

(** The route; [down] tells whether the query fails. *)
Definition listStudents (down : bool) (st : db) : list_response * db :=
  if down then ({| list_status := 500; list_json := ListFailure "Failed to get students" |}, st)
  else ({| list_status := 200; list_json := Students (newest_first (students st)) |}, st).

(** ** Requests *)

(** The routing table of [server.js]. *)
Inductive request :=
| PostLogin (body : obj)
| PostRegister (body : obj)
| GetStudent (userId : oid)
| GetStudents (down : bool)
| PutStudent (userId : oid) (body : obj)
| DeleteStudent (studentId : oid)
| PostResetPassword (body : obj).

(** The store a request leaves. *)
Definition serve (e : env) (r : request) (st : db) : db :=
  match r with
  | PostLogin body => snd (login e body st)
  | PostRegister body => snd (register e body st)
  | GetStudent userId => snd (getStudent e userId st)
  | GetStudents down => snd (listStudents down st)
  | PutStudent userId body => snd (updateStudent e userId body st)
  | DeleteStudent studentId => snd (deleteStudent e studentId st)
  | PostResetPassword body => snd (resetPassword e body st)
  end.

(** The store after the requests of a list, served one after the other. *)
Fixpoint serve_all (reqs : list (env * request)) (st : db) : db :=
  match reqs with
  | [] => st
  | (e, r) :: rest => serve_all rest (serve e r st)
  end.

(** No two accounts share an email. *)
Definition unique_emails (st : db) : Prop := NoDup (u_email <$> users st).

(** Requests whose email is a string and whose update is of plain
    property names and leaves the account reference alone. *)
Definition tame (r : request) : Prop :=
  match r with
  | PostRegister body => exists email, body !! "email" = Some (VStr email)
  | PutStudent _ body => plain body /\ body !! "userId" = None
  | _ => True
  end.

(** The string is made of white space only. *)
Fixpoint all_white (s : string) : bool :=
  match s with
  | EmptyString => true
  | String c rest => is_white_space c && all_white rest
  end.

(** ** Login *)

(** X1: [login] answers 200 only when an account matches the email
    filter and the password is a string that bcrypt accepts against that
    account's hash; the store is untouched, the response carries that
    account's id, email and role, and the token's claims carry its id and
    role with an expiry seven days after issue. *)
Theorem login_success_sound e body st r st' :
  login e body st = (r, st') -> status r = 200 ->
  exists u plain p,
    email_filter (body !! "email") = Some p /\
    find (fun x => p (u_email x)) (users st) = Some u /\
    body !! "password" = Some (VStr plain) /\
    bcrypt_verify plain (u_password u) = true /\
    st' = st /\
    r = reply 200 (LoginOk (u_role u) (jwt_sign e (u_id u) (u_role u)) (view_of u)) /\
    exists c, jwt_decode (jwt_sign e (u_id u) (u_role u)) = Some c /\
              c_userId c = u_id u /\ c_role c = u_role u /\
              c_iat c = now e / 1000 /\ c_exp c = c_iat c + 604800.
Proof.
  unfold login, try_catch, login_try, bind, User_findOne. intros Hrun Hstatus.
  assert (Hno : forall msg code, code <> 200 -> (fail_with code msg, st) = (r, st') -> False).
  { intros msg code Hcode Heq. injection Heq as <- _. simpl in Hstatus. congruence. }
  destruct (fails e OpUserFindOne); [now apply Hno in Hrun|].
  destruct (email_filter (body !! "email")) as [p|] eqn:Hp; [|now apply Hno in Hrun].
  destruct (find _ _) as [u|] eqn:Hu; [|now apply Hno in Hrun].
  unfold bcrypt_compare in Hrun.
  destruct (body !! "password") as [pw|] eqn:Hpw; [|now apply Hno in Hrun].
  destruct pw as [| | |plain| | | |]; try now apply Hno in Hrun.
  unfold ret in Hrun.
  destruct (bcrypt_verify plain (u_password u)) eqn:Hv; [|now apply Hno in Hrun].
  simpl in Hrun. injection Hrun as <- <-.
  exists u, plain, p. repeat (split; [reflexivity || assumption|]).
  eexists. split; [apply jwt_decode_encode|]. simpl. repeat split.
Qed.

(** ** Routes that only read *)

Lemma getStudent_keeps_store e userId st : snd (getStudent e userId st) = st.
Proof.
  unfold getStudent, try_catch, bind, Student_findOne.
  destruct (fails e OpStudentFindOne); [reflexivity|]. now destruct (find _ _).
Qed.

(** X2: [login], [getStudent] and [listStudents] leave the store as it
    is, whatever the request and whether or not they fail. *)
Theorem reading_routes_keep_store e body userId down st :
  snd (login e body st) = st /\
  snd (getStudent e userId st) = st /\
  snd (listStudents down st) = st.
Proof.
  split; [apply login_keeps_store|]. split; [apply getStudent_keeps_store|].
  unfold listStudents. now destruct down.
Qed.

(** ** Registration: what is written, and when *)

Lemma find_snoc {A} (p : A -> bool) (l : list A) (x : A) :
  find p l = None -> find p (l ++ [x]) = if p x then Some x else None.
Proof.
  induction l as [|y l IH]; simpl; [reflexivity|].
  destruct (p y); [discriminate | exact IH].
Qed.

Lemma apply_defaults_dates e d :
  d !! "createdAt" = None -> d !! "updatedAt" = None ->
  apply_defaults e studentSchema d !! "createdAt" = Some (VDate (now e)) /\
  apply_defaults e studentSchema d !! "updatedAt" = Some (VDate (now e)).
Proof.
  intros Hc Hu. unfold apply_defaults, studentSchema. simpl.
  rewrite Hu, lookup_insert_ne, Hc by discriminate.
  split; [apply lookup_insert_eq|].
  rewrite lookup_insert_ne by discriminate. apply lookup_insert_eq.
Qed.

Lemma student_fields_absent u email sd skills k :
  ~ In k ("userId" :: "email" :: "project" :: "skills" :: copied) ->
  student_fields u email sd skills !! k = None.
Proof.
  intros Hk. unfold student_fields.
  repeat (rewrite object_literal_cons;
          match goal with
          | |- context [String.eqb ?a k] =>
              destruct (String.eqb_spec a k) as [<-|_];
              [exfalso; apply Hk; simpl; tauto|]
          end).
  apply object_literal_nil.
Qed.

Lemma student_fields_email u email sd skills :
  student_fields u email sd skills !! "email" = email.
Proof.
  unfold student_fields. repeat (rewrite object_literal_cons; simpl String.eqb).
  destruct email; [reflexivity|].
  repeat (rewrite object_literal_cons; simpl String.eqb).
  apply object_literal_nil.
Qed.

(** X3: after a successful [register] on a store that satisfies the data
    model, [getStudent] with the returned account id answers with the
    profile just appended; that profile is linked to the account, carries
    the email, has both dates equal to the clock reading of the
    registration, has every required path filled, and holds each string
    property of the body that [register] copies. *)
Theorem register_then_getStudent e e2 body email st tok v st' :
  consistent st ->
  body !! "email" = Some (VStr email) ->
  register e body st = (reply 200 (RegisterOk tok v), st') ->
  fails e2 OpStudentFindOne = false ->
  exists d,
    getStudent e2 (v_id v) st' = (reply 200 (StudentOk d), st') /\
    students st' = students st ++ [d] /\
    d !! "userId" = Some (VId (v_id v)) /\
    d !! "email" = Some (VStr email) /\
    d !! "createdAt" = Some (VDate (now e)) /\
    d !! "updatedAt" = Some (VDate (now e)) /\
    (forall k p, (k, p) ∈ studentSchema -> required p = true ->
       required_ok (d !! k) = true) /\
    (forall k s, In k copied -> body !! k = Some (VStr s) -> d !! k = Some (VStr s)).
Proof.
  intros Hcons He Hrun Hok.
  destruct (register_success_inv e body email st tok v st' He Hrun)
    as (plain & skills & d0 & Hp & _ & _ & _ & Hno & Hsk & Hcast & Hvalid & _ & Hv & Hst).
  set (u := new_account e email plain st) in *.
  set (st1 := with_account u st) in *.
  set (fields := student_fields u (Some (VStr email)) (studentData_of body) skills) in *.
  set (d := new_profile e d0 st1) in *.
  assert (Hd0 : forall k p, (k, p) ∈ studentSchema ->
            d0 !! k = fields !! k ≫= cast (ptype p)).
  { intros k p Hin. now apply (cast_doc_lookup studentSchema fields d0 k p studentSchema_NoDup). }
  assert (Hin : forall k p, In (k, p) studentSchema -> (k, p) ∈ studentSchema).
  { intros k p Hk. now apply list_elem_of_In. }
  assert (Hlink : d !! "userId" = Some (VId (u_id u))).
  { unfold d. rewrite new_profile_lookup by discriminate.
    rewrite (Hd0 "userId" (path SObjectId true false)) by (apply Hin; simpl; tauto).
    unfold fields. now rewrite student_fields_userId. }
  assert (Hdates : d !! "createdAt" = Some (VDate (now e)) /\
                   d !! "updatedAt" = Some (VDate (now e))).
  { unfold d, new_profile. rewrite !lookup_insert_ne by discriminate.
    apply apply_defaults_dates.
    - rewrite (Hd0 "createdAt" (path SDate false true)) by (apply Hin; simpl; tauto).
      unfold fields. rewrite student_fields_absent; [reflexivity|].
      simpl. intuition discriminate.
    - rewrite (Hd0 "updatedAt" (path SDate false true)) by (apply Hin; simpl; tauto).
      unfold fields. rewrite student_fields_absent; [reflexivity|].
      simpl. intuition discriminate. }
  exists d. subst st' v. simpl v_id.
  split; [|split; [reflexivity|split; [exact Hlink|split; [|split; [apply Hdates|split; [apply Hdates|split]]]]]].
  - apply getStudent_found; [assumption|]. simpl.
    rewrite find_snoc.
    + assert (Hid : has_id "userId" (next_id st) d = true) by now apply has_id_ref; unfold ref; rewrite Hlink.
      now rewrite Hid.
    + destruct (find _ (students st)) as [x|] eqn:Hf; [|reflexivity].
      apply find_some in Hf as [Hx Hidx]. apply has_id_ref in Hidx.
      pose proof (links_known st Hcons) as Hl. rewrite Forall_forall in Hl.
      apply list_elem_of_In in Hx. specialize (Hl x Hx _ Hidx). lia.
  - unfold d. rewrite new_profile_lookup by discriminate.
    rewrite (Hd0 "email" (path SString true false)) by (apply Hin; simpl; tauto).
    unfold fields. now rewrite student_fields_email.
  - intros k p Hk Hreq.
    pose proof (validate_required _ _ k p Hvalid Hk Hreq) as Hvk.
    unfold d, new_profile. rewrite lookup_insert_ne; [exact Hvk|].
    intros <-. apply list_elem_of_In in Hk. simpl in Hk.
    repeat (destruct Hk as [Hk|Hk]; [discriminate|]). contradiction.
  - intros k s Hk Hbody.
    assert (Hkn : k <> "_id" /\ k <> "createdAt" /\ k <> "updatedAt" /\
                  k <> "email" /\ k <> "password" /\
                  exists p, (k, p) ∈ studentSchema /\ ptype p = SString).
    { simpl in Hk.
      repeat (destruct Hk as [<-|Hk];
              [repeat (split; [discriminate|]);
               exists (path SString true false); split; [apply Hin; simpl; tauto|reflexivity]|]).
      contradiction. }
    destruct Hkn as (? & ? & ? & ? & ? & p & Hp' & Hty).
    unfold d. rewrite new_profile_lookup by assumption.
    rewrite (Hd0 k p Hp'). unfold fields.
    rewrite student_fields_copied, studentData_lookup, Hbody by assumption.
    simpl. now rewrite Hty.
Qed.

(** X4: [register] only appends: the accounts and profiles of the old
    store stay first and unchanged, at most one account and one profile
    are added, a profile never without its account, and a profile is
    added exactly when the answer is 200. *)
Theorem register_only_appends e body st :
  let r := fst (register e body st) in
  let st' := snd (register e body st) in
  (exists us, users st' = users st ++ us /\ (List.length us <= 1)%nat) /\
  (students st' = students st /\ status r <> 200 \/
   exists u d, users st' = users st ++ [u] /\ students st' = students st ++ [d] /\
               status r = 200) /\
  (next_id st <= next_id st')%N.
Proof.
  destruct (register e body st) as [r st'] eqn:Hrun. simpl.
  apply register_outcomes in Hrun.
  destruct Hrun as [| |u Hrole Hid|u skills d0 Hrole Hid Hsk Hc Hv]; simpl.
  - split; [exists []; split; [now rewrite app_nil_r | simpl; lia]|]. split; [left; split; [reflexivity|discriminate]|lia].
  - split; [exists []; split; [now rewrite app_nil_r | simpl; lia]|]. split; [left; split; [reflexivity|discriminate]|lia].
  - split; [exists [u]; split; [reflexivity | simpl; lia]|].
    split; [left; split; [reflexivity|discriminate]|lia].
  - split; [exists [u]; split; [reflexivity | simpl; lia]|].
    split; [right; eauto|lia].
Qed.

(** X5: a password that is no string stops [register] before anything
    is written: the answer is not 200 and the store is the old one. *)
Theorem register_bad_password_writes_nothing e body st :
  not_a_string (body !! "password") ->
  snd (register e body st) = st /\ status (fst (register e body st)) <> 200.
Proof.
  intros Hpw. unfold register, try_catch, register_try, bind, User_findOne.
  destruct (fails e OpUserFindOne); [split; [reflexivity|discriminate]|].
  destruct (email_filter _); [|split; [reflexivity|discriminate]].
  destruct (find _ _); [split; [reflexivity|discriminate]|].
  unfold bcrypt_hash. destruct (body !! "password") as [[]|];
    simpl in Hpw; try contradiction; split; (reflexivity || discriminate).
Qed.

(** ** The skills pipeline *)

Lemma trim_start_no_char c s : has_char c s = false -> has_char c (trim_start s) = false.
Proof.
  induction s as [|x s IH]; simpl; [trivial|]. intros Hx.
  apply orb_false_iff in Hx as [Hx Hs].
  destruct (is_white_space x); [auto | simpl; now rewrite Hx, Hs].
Qed.

Lemma trim_end_no_char c s : has_char c s = false -> has_char c (trim_end s) = false.
Proof.
  induction s as [|x s IH]; simpl; [trivial|]. intros Hx.
  apply orb_false_iff in Hx as [Hx Hs]. specialize (IH Hs).
  destruct (trim_end s) as [|k kept].
  - destruct (is_white_space x); simpl; [reflexivity | now rewrite Hx].
  - cbn [has_char] in *. now rewrite Hx, IH.
Qed.

Lemma trim_start_empty s : trim_start s = EmptyString <-> all_white s = true.
Proof.
  induction s as [|x s IH]; simpl; [easy|].
  destruct (is_white_space x); simpl; [exact IH | easy].
Qed.

Lemma trim_end_empty s : starts_clean s -> trim_end s = EmptyString -> s = EmptyString.
Proof.
  destruct s as [|x s]; simpl; [trivial|]. intros ->.
  destruct (trim_end s); discriminate.
Qed.

Lemma trim_empty s : trim s = EmptyString <-> all_white s = true.
Proof.
  rewrite <- trim_start_empty. unfold trim. split.
  - apply trim_end_empty, trim_start_clean.
  - now intros ->.
Qed.

(** X6: every skill [register] keeps is non-empty, has no white space
    at either end (trimming it again changes nothing) and holds no
    comma. *)
Theorem skills_are_clean v skills :
  split_skills v = inr skills ->
  Forall (fun skill => skill <> EmptyString /\ trim skill = skill /\
                       has_char "," skill = false) skills.
Proof.
  intros Hs. pose proof (split_skills_trimmed v skills Hs) as Ht.
  destruct (split_skills_inv v skills Hs) as (s & -> & ->).
  rewrite Forall_forall in Ht. apply Forall_forall. intros x Hx.
  destruct (Ht x Hx) as [Htrim Hne]. split; [assumption|]. split; [assumption|].
  apply list_elem_of_filter in Hx as [_ Hx].
  apply list_elem_of_fmap in Hx as (piece & -> & Hpiece).
  pose proof (split_pieces "," s) as Hp. rewrite Forall_forall in Hp.
  unfold trim. now apply trim_end_no_char, trim_start_no_char, Hp.
Qed.

(** X7: the skills of a string are the empty list exactly when every
    piece between its commas is white space only; so the empty string,
    or a string of commas and blanks, gives no skill at all. *)
Theorem skills_empty_iff_blank s :
  split_skills (Some (VStr s)) = inr [] <->
  Forall (fun piece => all_white piece = true) (split "," s).
Proof.
  simpl. generalize (split "," s). intros l. split.
  - intros Heq. injection Heq as Heq.
    induction l as [|x l IH]; [constructor|].
    rewrite fmap_cons, filter_cons in Heq.
    destruct (decide (truthy (trim x))) as [Ht|Ht]; [discriminate|].
    constructor; [|auto]. apply trim_empty.
    destruct (decide (trim x = EmptyString)) as [E|E]; [exact E | now destruct Ht].
  - intros Hall. f_equal. induction Hall as [|x l Hx Hl IH]; [reflexivity|].
    rewrite fmap_cons, filter_cons.
    apply trim_empty in Hx.
    destruct (decide (truthy (trim x))) as [Ht|Ht]; [now destruct Ht | exact IH].
Qed.

(** ** Updating: what the body cannot do *)


Lemma replace_first_insert {A} (p : A -> bool) (y x : A) (l : list A) :
  find p l = Some x ->
  exists i, l !! i = Some x /\ replace_first p y l = <[i := y]> l /\
            forall j z, (j < i)%nat -> l !! j = Some z -> p z = false.
Proof.
  induction l as [|z l IH]; cbn [find replace_first]; [discriminate|].
  destruct (p z) eqn:Hz.
  - intros [= ->]. exists 0%nat. repeat split. intros j w Hj. lia.
  - intros Hf. destruct (IH Hf) as (i & Hi & Hr & Hbefore).
    exists (S i). split; [exact Hi|]. split; [simpl; now rewrite Hr|].
    intros [|j] w Hj Hw; simpl in Hw; [now simplify_eq|].
    apply (Hbefore j w); [lia | assumption].
Qed.


(** X9: whatever the body, an update leaves the accounts and the
    identifier counter alone; when the answer is not 200 the store is the
    old one; when it is 200 exactly one profile is replaced, the first of
    the collection linked to the account, by the record returned. *)
Theorem updateStudent_touches_one_profile e userId body st :
  let r := fst (updateStudent e userId body st) in
  let st' := snd (updateStudent e userId body st) in
  users st' = users st /\ next_id st' = next_id st /\
  (status r <> 200 -> st' = st) /\
  (status r = 200 ->
     exists i d d',
       students st !! i = Some d /\ has_id "userId" userId d = true /\
       (forall j x, (j < i)%nat -> students st !! j = Some x ->
          has_id "userId" userId x = false) /\
       json r = StudentOk d' /\ students st' = <[i := d']> (students st)).
Proof.
  unfold updateStudent, try_catch, bind, Student_findOneAndUpdate.
  destruct (prepare_update _) as [apply|]; simpl;
    [|repeat split; try reflexivity; intros Hs; discriminate].
  destruct (fails e OpStudentFindOneAndUpdate); simpl;
    [repeat split; try reflexivity; intros Hs; discriminate|].
  destruct (find _ _) as [d|] eqn:Hf; simpl;
    [|repeat split; try reflexivity; intros Hs; discriminate].
  destruct (apply d) as [d'|]; simpl;
    [|repeat split; try reflexivity; intros Hs; discriminate].
  split; [reflexivity|]. split; [reflexivity|]. split; [intros Hs; now destruct Hs|].
  intros _. destruct (replace_first_insert _ d' d _ Hf) as (i & Hi & Hr & Hbefore).
  exists i, d, d'. split; [assumption|]. split; [now apply find_some in Hf|].
  split; [assumption|]. split; [reflexivity | assumption].
Qed.

(** ** Deleting: what stays *)

Lemma remove_first_subset {A} (p : A -> bool) (l : list A) (x : A) :
  x ∈ remove_first p l -> x ∈ l.
Proof.
  induction l as [|y l IH]; simpl; [trivial|].
  destruct (p y); intros Hx; [now right|].
  apply elem_of_cons in Hx as [->|Hx]; [now left | right; auto].
Qed.

Lemma remove_first_keeps {A} (p : A -> bool) (l : list A) (x : A) :
  x ∈ l -> p x = false -> x ∈ remove_first p l.
Proof.
  induction l as [|y l IH]; simpl; [trivial|]. intros Hx Hp.
  apply elem_of_cons in Hx as [<-|Hx].
  - rewrite Hp. now left.
  - destruct (p y); [assumption | right; auto].
Qed.

Lemma find_by_id (l : list User) (u : User) :
  NoDup (u_id <$> l) -> u ∈ l ->
  find (fun x => N.eqb (u_id u) (u_id x)) l = Some u.
Proof.
  induction l as [|y l IH]; intros Hnd Hin; [inversion Hin|].
  rewrite fmap_cons in Hnd. apply NoDup_cons in Hnd as [Hy Hnd].
  cbn [find]. apply elem_of_cons in Hin as [->|Hin].
  - now rewrite N.eqb_refl.
  - destruct (N.eqb_spec (u_id u) (u_id y)) as [Heq|_]; [|auto].
    destruct Hy. rewrite <- Heq. apply list_elem_of_fmap. eauto.
Qed.

(** The accounts a deletion leaves: all of them, or all but the first
    with some identifier. *)
Lemma deleteStudent_accounts e studentId st :
  next_id (snd (deleteStudent e studentId st)) = next_id st /\
  (users (snd (deleteStudent e studentId st)) = users st \/
   exists d a, find (has_id "_id" studentId) (students st) = Some d /\
               ref "userId" d = Some a /\
               users (snd (deleteStudent e studentId st)) =
                 remove_first (fun u => N.eqb a (u_id u)) (users st)).
Proof.
  destruct (fails e OpStudentFindById) eqn:Hf.
  { unfold deleteStudent, try_catch, bind, Student_findById. rewrite Hf. simpl. auto. }
  rewrite deleteStudent_unfold by assumption.
  destruct (find _ _) as [d|] eqn:Hfind; [|simpl; auto].
  destruct (fails e OpUserFindByIdAndDelete); [simpl; auto|].
  cbv zeta. destruct (d !! "userId") as [v|] eqn:Hv.
  2:{ destruct (fails e OpStudentFindByIdAndDelete); simpl; auto. }
  destruct v; try (destruct (fails e OpStudentFindByIdAndDelete); simpl; now auto).
  assert (ref "userId" d = Some i) by (unfold ref; now rewrite Hv).
  destruct (fails e OpStudentFindByIdAndDelete); simpl; split; try reflexivity;
    right; eauto.
Qed.

Lemma deleteStudent_profiles e studentId st :
  students (snd (deleteStudent e studentId st)) = students st \/
  students (snd (deleteStudent e studentId st)) =
    remove_first (has_id "_id" studentId) (students st).
Proof.
  destruct (fails e OpStudentFindById) eqn:Hf.
  { unfold deleteStudent, try_catch, bind, Student_findById. rewrite Hf. simpl. auto. }
  rewrite deleteStudent_unfold by assumption.
  destruct (find _ _) as [d|]; [|simpl; auto].
  destruct (fails e OpUserFindByIdAndDelete); [simpl; auto|]. cbv zeta.
  destruct (d !! "userId") as [[]|]; destruct (fails e OpStudentFindByIdAndDelete);
    simpl; auto.
Qed.

(** X10: whatever its outcome, [deleteStudent] adds nothing and keeps
    every profile whose [_id] is not the one given and every account
    that the profile found is not linked to; when no profile has the
    [_id], the store is the old one. *)
Theorem deleteStudent_keeps_the_rest e studentId st :
  let st' := snd (deleteStudent e studentId st) in
  next_id st' = next_id st /\
  (forall u, u ∈ users st' -> u ∈ users st) /\
  (forall d, d ∈ students st' -> d ∈ students st) /\
  (forall d, d ∈ students st -> has_id "_id" studentId d = false -> d ∈ students st') /\
  (forall u, u ∈ users st ->
     (forall d, find (has_id "_id" studentId) (students st) = Some d ->
                ref "userId" d <> Some (u_id u)) ->
     u ∈ users st') /\
  (find (has_id "_id" studentId) (students st) = None -> st' = st).
Proof.
  cbv zeta.
  destruct (deleteStudent_accounts e studentId st) as [Hn Hu].
  pose proof (deleteStudent_profiles e studentId st) as Hs.
  split; [assumption|]. split; [|split; [|split; [|split]]].
  - intros u. destruct Hu as [->|(d & a & _ & _ & ->)]; [trivial|].
    apply remove_first_subset.
  - intros d. destruct Hs as [->| ->]; [trivial | apply remove_first_subset].
  - intros d Hd Hid. destruct Hs as [->| ->]; [trivial | now apply remove_first_keeps].
  - intros u Hin Hlink. destruct Hu as [->|(d & a & Hf & Ha & ->)]; [trivial|].
    apply remove_first_keeps; [assumption|].
    apply N.eqb_neq. intros ->. now apply (Hlink d).
  - intros Hnone. destruct (fails e OpStudentFindById) eqn:Hf.
    + unfold deleteStudent, try_catch, bind, Student_findById. now rewrite Hf.
    + rewrite deleteStudent_unfold by assumption. now rewrite Hnone.
Qed.

Lemma register_not_refused e body email st :
  body !! "email" = Some (VStr email) ->
  account_with email st = None ->
  fst (register e body st) <> fail_with 400 "Email already registered".
Proof.
  intros He Hno. unfold register, try_catch, register_try, bind.
  destruct (fails e OpUserFindOne) eqn:Hf.
  { unfold User_findOne. rewrite Hf. simpl. discriminate. }
  rewrite He, User_findOne_string, Hno by assumption.
  destruct (bcrypt_hash e _ st) as [[ex|hashed] st1]; [simpl; discriminate|].
  destruct (User_create e _ _ _ st1) as [[ex|u] st2]; [simpl; discriminate|].
  unfold lift. destruct (split_skills _) as [ex|skills]; [simpl; discriminate|].
  destruct (Student_create e _ st2) as [[ex|d] st3]; simpl; discriminate.
Qed.

(** X11: on a store that satisfies the data model and has no two
    accounts with one email, deleting a student whose account deletion is
    not hit by a storage failure frees the account's email: no account
    has it afterwards, and a later [register] with that email is not
    refused as taken. *)
Theorem deleteStudent_frees_email e studentId st d u :
  consistent st -> unique_emails st ->
  fails e OpStudentFindById = false ->
  fails e OpUserFindByIdAndDelete = false ->
  find (has_id "_id" studentId) (students st) = Some d ->
  u ∈ users st -> ref "userId" d = Some (u_id u) ->
  account_with (u_email u) (snd (deleteStudent e studentId st)) = None /\
  forall e2 body, body !! "email" = Some (VStr (u_email u)) ->
    fst (register e2 body (snd (deleteStudent e studentId st)))
      <> fail_with 400 "Email already registered".
Proof.
  intros Hcons Huniq Hf1 Hf2 Hfind Hin Hlink.
  assert (Hnone : account_with (u_email u) (snd (deleteStudent e studentId st)) = None).
  { rewrite deleteStudent_unfold by assumption. rewrite Hfind, Hf2. cbv zeta.
    assert (Hv : d !! "userId" = Some (VId (u_id u))).
    { unfold ref in Hlink. destruct (d !! "userId") as [[]|]; congruence. }
    rewrite Hv.
    assert (Hgone : Forall (fun y => Some (u_email y) <> Some (u_email u))
                      (remove_first (fun x => N.eqb (u_id u) (u_id x)) (users st))).
    { apply (remove_first_gone (fun y => Some (u_email y)) _ _ u).
      - rewrite <- list_fmap_alt. exact Huniq.
      - apply find_by_id; [apply (account_ids_unique st Hcons) | assumption].
      - reflexivity. }
    assert (Hacc : account_with (u_email u) (without_account (u_id u) st) = None).
    { unfold account_with, without_account. simpl. clear Hfind.
      destruct (find _ _) as [w|] eqn:Hw; [|reflexivity].
      apply find_some in Hw as [Hwin Heq]. apply String.eqb_eq in Heq.
      rewrite Forall_forall in Hgone. apply list_elem_of_In in Hwin.
      destruct (Hgone w Hwin). now rewrite Heq. }
    destruct (fails e OpStudentFindByIdAndDelete); simpl; exact Hacc. }
  split; [exact Hnone|]. intros e2 body He.
  now apply (register_not_refused e2 body (u_email u)).
Qed.

(** ** Resetting a password *)

Definition with_password (u : User) (hash : string) : User :=
  {| u_id := u_id u; u_email := u_email u; u_password := hash; u_role := u_role u |}.

Definition with_users (l : list User) (st : db) : db :=
  {| users := l; students := students st; next_id := next_id st |}.

(** The outcomes of [resetPassword]: a refusal or exception with the
    store as it was, or one account saved with the new hash. *)
Lemma resetPassword_outcomes e body st :
  (status (fst (resetPassword e body st)) <> 200 /\ snd (resetPassword e body st) = st) \/
  exists u plain,
    u ∈ users st /\ body !! "newPassword" = Some (VStr plain) /\
    resetPassword e body st =
      (reply 200 Done,
       with_users (replace_first (fun x => N.eqb (u_id u) (u_id x))
                     (with_password u (bcrypt_digest plain (salt e))) (users st)) st).
Proof.
  unfold resetPassword, try_catch, bind, User_findOne.
  destruct (fails e OpUserFindOne); [left; split; [discriminate|reflexivity]|].
  destruct (email_filter _) as [p|]; [|left; split; [discriminate|reflexivity]].
  destruct (find _ _) as [u|] eqn:Hu; [|left; split; [discriminate|reflexivity]].
  unfold bcrypt_hash.
  destruct (body !! "newPassword") as [[| | |plain| | | |]|];
    try (left; split; [discriminate|reflexivity]).
  unfold ret, User_save. simpl.
  destruct (fails e OpUserSave); [left; split; [discriminate|reflexivity]|].
  right. exists u, plain. split; [|split; reflexivity].
  apply find_some in Hu as [Hin _]. now apply list_elem_of_In.
Qed.

Lemma resetPassword_projection {B} (f : User -> B) e body st :
  consistent st ->
  (forall u hash, f (with_password u hash) = f u) ->
  f <$> users (snd (resetPassword e body st)) = f <$> users st.
Proof.
  intros Hcons Hf.
  destruct (resetPassword_outcomes e body st) as [[_ ->]|(u & plain & Hin & _ & ->)];
    [reflexivity|].
  simpl. apply (fmap_replace_first f _ _ u); [|apply Hf].
  apply find_by_id; [apply (account_ids_unique st Hcons) | assumption].
Qed.


Lemma find_replace_first (p : User -> bool) (l : list User) (u u' : User) :
  NoDup (u_id <$> l) -> find p l = Some u -> p u' = true -> u_id u' = u_id u ->
  find p (replace_first (fun x => N.eqb (u_id u) (u_id x)) u' l) = Some u'.
Proof.
  induction l as [|y l IH]; intros Hnd Hf Hp Hid; [discriminate|].
  rewrite fmap_cons in Hnd. apply NoDup_cons in Hnd as [Hy Hnd].
  cbn [find replace_first] in *. destruct (p y) eqn:Hpy.
  - injection Hf as ->. rewrite N.eqb_refl. cbn [find]. now rewrite Hp.
  - destruct (N.eqb_spec (u_id u) (u_id y)) as [Heq|_].
    + destruct Hy. rewrite <- Heq. apply list_elem_of_fmap. exists u.
      split; [reflexivity|]. apply find_some in Hf as [Hin _]. now apply list_elem_of_In.
    + cbn [find]. rewrite Hpy. auto.
Qed.

(** X13: after a successful [resetPassword] for a string email, on a
    store that satisfies the data model, [login] with the new password
    succeeds for the same account, and [login] with any string that
    bcrypt does not accept against the new hash is answered 401; the
    reset itself asks for no proof of the old password. *)
Theorem resetPassword_then_login e e2 body email plain st u :
  consistent st ->
  fails e OpUserFindOne = false -> fails e OpUserSave = false ->
  fails e2 OpUserFindOne = false ->
  body !! "email" = Some (VStr email) ->
  body !! "newPassword" = Some (VStr plain) ->
  account_with email st = Some u ->
  let st' := snd (resetPassword e body st) in
  fst (resetPassword e body st) = reply 200 Done /\
  (forall body2, body2 !! "email" = Some (VStr email) ->
     body2 !! "password" = Some (VStr plain) ->
     login e2 body2 st' =
       (reply 200 (LoginOk (u_role u) (jwt_sign e2 (u_id u) (u_role u)) (view_of u)), st')) /\
  (forall body2 other, body2 !! "email" = Some (VStr email) ->
     body2 !! "password" = Some (VStr other) ->
     bcrypt_verify other (bcrypt_digest plain (salt e)) = false ->
     login e2 body2 st' = (fail_with 401 "Invalid credentials", st')).
Proof.
  intros Hcons Hf1 Hf2 Hf3 He Hnew Hu. cbv zeta.
  set (u' := with_password u (bcrypt_digest plain (salt e))).
  assert (Hrun : resetPassword e body st =
            (reply 200 Done,
             with_users (replace_first (fun x => N.eqb (u_id u) (u_id x)) u' (users st)) st)).
  { unfold resetPassword, try_catch, bind.
    rewrite He, User_findOne_string, Hu, Hnew by assumption. simpl.
    unfold User_save. now rewrite Hf2. }
  rewrite Hrun. simpl fst. simpl snd.
  assert (Hacc : account_with email
            (with_users (replace_first (fun x => N.eqb (u_id u) (u_id x)) u' (users st)) st)
            = Some u').
  { unfold account_with. simpl. apply find_replace_first.
    - apply (account_ids_unique st Hcons).
    - exact Hu.
    - simpl. destruct (account_with_email email st u Hu) as [-> _]. apply String.eqb_refl.
    - reflexivity. }
  split; [reflexivity|]. split.
  - intros body2 He2 Hp2.
    rewrite (login_match e2 body2 email plain _ u' Hf3 He2 Hp2 Hacc); [reflexivity|].
    apply bcrypt_verify_digest.
  - intros body2 other He2 Hp2 Hv.
    now apply (login_mismatch e2 body2 email other _ u').
Qed.

(** ** Listing *)

Lemma newer_or_same_total a b : newer_or_same a b = true \/ newer_or_same b a = true.
Proof.
  unfold newer_or_same. destruct (created a) as [x|], (created b) as [y|]; auto.
  destruct (Z.leb_spec y x); [now left|]. right. apply Z.leb_le. lia.
Qed.

Lemma newer_or_same_trans a b c :
  newer_or_same a b = true -> newer_or_same b c = true -> newer_or_same a c = true.
Proof.
  unfold newer_or_same.
  destruct (created a) as [x|], (created b) as [y|], (created c) as [z|];
    try easy. rewrite !Z.leb_le. lia.
Qed.

Lemma insert_by_date_perm x l : insert_by_date x l ≡ₚ x :: l.
Proof.
  induction l as [|y l IH]; simpl; [reflexivity|].
  destruct (newer_or_same x y); [reflexivity|].
  rewrite IH. apply Permutation_swap.
Qed.

Lemma newest_first_perm l : newest_first l ≡ₚ l.
Proof.
  induction l as [|x l IH]; simpl; [reflexivity|].
  now rewrite insert_by_date_perm, IH.
Qed.

Lemma insert_by_date_sorted x l :
  StronglySorted (fun a b => newer_or_same a b = true) l ->
  StronglySorted (fun a b => newer_or_same a b = true) (insert_by_date x l).
Proof.
  induction 1 as [|y l Hl IH Hy]; simpl; [repeat constructor|].
  destruct (newer_or_same x y) eqn:Hxy.
  - constructor; [now constructor|]. constructor; [assumption|].
    eapply Forall_impl; [exact Hy|]. simpl. intros z Hz.
    now apply (newer_or_same_trans x y z).
  - constructor; [assumption|]. rewrite insert_by_date_perm.
    constructor; [|assumption].
    destruct (newer_or_same_total x y); congruence.
Qed.

Lemma newest_first_sorted l :
  StronglySorted (fun a b => newer_or_same a b = true) (newest_first l).
Proof.
  induction l as [|x l IH]; simpl; [constructor | now apply insert_by_date_sorted].
Qed.

Lemma StronglySorted_at {A} (R : A -> A -> Prop) l i j a b :
  StronglySorted R l -> (i < j)%nat -> l !! i = Some a -> l !! j = Some b -> R a b.
Proof.
  intros Hs. revert i j. induction Hs as [|x l Hl IH Hx]; intros i j Hij Hi Hj.
  - inversion Hi.
  - destruct j as [|j]; [lia|]. simpl in Hj. destruct i as [|i]; simpl in Hi.
    + simplify_eq. rewrite Forall_forall in Hx. apply Hx.
      apply list_elem_of_lookup. eauto.
    + apply (IH i j); [lia | assumption | assumption].
Qed.

(** X14: when the query does not fail, [listStudents] answers 200 with
    all the profiles of the store, each once, newest creation date first
    (a profile without a date after the dated ones), and leaves the store
    as it is; when the query fails the answer is 500. *)
Theorem listStudents_newest_first st :
  (exists l,
     listStudents false st = ({| list_status := 200; list_json := Students l |}, st) /\
     l ≡ₚ students st /\
     StronglySorted (fun a b => newer_or_same a b = true) l /\
     forall i j a b x y, (i < j)%nat -> l !! i = Some a -> l !! j = Some b ->
       created a = Some x -> created b = Some y -> y <= x) /\
  listStudents true st =
    ({| list_status := 500; list_json := ListFailure "Failed to get students" |}, st).
Proof.
  split; [|reflexivity]. exists (newest_first (students st)).
  split; [reflexivity|]. split; [apply newest_first_perm|].
  split; [apply newest_first_sorted|].
  intros i j a b x y Hij Hi Hj Ha Hb.
  pose proof (StronglySorted_at _ _ i j a b (newest_first_sorted (students st)) Hij Hi Hj)
    as Hab.
  unfold newer_or_same in Hab. rewrite Ha, Hb in Hab. now apply Z.leb_le.
Qed.

(** ** Admin bootstrap *)

Definition admin_account (e : env) (st : db) : User :=
  {| u_id := next_id st; u_email := "admin@ojt.com";
     u_password := bcrypt_digest "admin123" (salt e); u_role := "admin" |}.

Lemma initializeAdmin_outcomes e st :
  initializeAdmin e st = st \/
  account_with "admin@ojt.com" st = None /\
  fails e OpUserFindOne = false /\ fails e OpUserCreate = false /\
  initializeAdmin e st = with_account (admin_account e st) st.
Proof.
  unfold initializeAdmin, bind.
  destruct (fails e OpUserFindOne) eqn:Hf.
  { left. unfold User_findOne. now rewrite Hf. }
  rewrite User_findOne_string by assumption.
  destruct (account_with "admin@ojt.com" st) as [w|] eqn:Hw; [now left|].
  simpl. unfold User_create.
  destruct (fails e OpUserCreate) eqn:Hc; [now left|]. right. auto.
Qed.

(** X15: the bootstrap leaves a store that has an account for
    admin@ojt.com as it is, and also when a storage call fails (the
    exception is swallowed); otherwise it appends one account with role
    "admin" for that email, with which [login] succeeds on the password
    "admin123"; run again on its own result, it changes nothing. *)
Theorem initializeAdmin_creates_admin_once e st :
  (is_Some (account_with "admin@ojt.com" st) -> initializeAdmin e st = st) /\
  (fails e OpUserFindOne = true \/ fails e OpUserCreate = true ->
     initializeAdmin e st = st) /\
  (account_with "admin@ojt.com" st = None ->
   fails e OpUserFindOne = false -> fails e OpUserCreate = false ->
     let st' := initializeAdmin e st in
     let admin := admin_account e st in
     users st' = users st ++ [admin] /\ students st' = students st /\
     (forall e2 body, fails e2 OpUserFindOne = false ->
        body !! "email" = Some (VStr "admin@ojt.com") ->
        body !! "password" = Some (VStr "admin123") ->
        login e2 body st' =
          (reply 200 (LoginOk "admin" (jwt_sign e2 (u_id admin) "admin") (view_of admin)),
           st')) /\
     (forall e2, initializeAdmin e2 st' = st')).
Proof.
  split; [|split].
  - intros [w Hw]. destruct (initializeAdmin_outcomes e st) as [?|(Hno & _)]; congruence.
  - intros Hfail. destruct (initializeAdmin_outcomes e st) as [?|(_ & Hf & Hc & _)];
      [assumption|]. destruct Hfail; congruence.
  - intros Hno Hf Hc. cbv zeta.
    assert (Hrun : initializeAdmin e st = with_account (admin_account e st) st).
    { unfold initializeAdmin, bind. rewrite User_findOne_string, Hno by assumption.
      simpl. unfold User_create. now rewrite Hc. }
    rewrite Hrun.
    assert (Hacc : account_with "admin@ojt.com" (with_account (admin_account e st) st)
                   = Some (admin_account e st)) by now apply account_with_appended.
    split; [reflexivity|]. split; [reflexivity|]. split.
    + intros e2 body Hok He Hp.
      rewrite (login_match e2 body "admin@ojt.com" "admin123" _ _ Hok He Hp Hacc);
        [reflexivity|]. apply bcrypt_verify_digest.
    + intros e2.
      destruct (initializeAdmin_outcomes e2 (with_account (admin_account e st) st))
        as [?|(Hno' & _)]; [assumption | congruence].
Qed.

(** ** Storage failures *)

(** X16: a route whose first storage call fails answers 500 with its
    own message and writes nothing. *)
Theorem first_storage_failure_writes_nothing e st :
  (fails e OpUserFindOne = true -> forall body,
     login e body st = (fail_with 500 "Login failed", st) /\
     register e body st = (fail_with 500 "Registration failed", st) /\
     resetPassword e body st = (fail_with 500 "Password reset failed", st)) /\
  (fails e OpStudentFindOne = true -> forall userId,
     getStudent e userId st = (fail_with 500 "Failed to get profile", st)) /\
  (fails e OpStudentFindOneAndUpdate = true -> forall userId body,
     updateStudent e userId body st = (fail_with 500 "Update failed", st)) /\
  (fails e OpStudentFindById = true -> forall studentId,
     deleteStudent e studentId st = (fail_with 500 "Delete failed", st)).
Proof.
  split; [|split; [|split]].
  - intros Hf body.
    unfold login, register, resetPassword, try_catch, login_try, register_try, bind,
      User_findOne. now rewrite Hf.
  - intros Hf userId. unfold getStudent, try_catch, bind, Student_findOne. now rewrite Hf.
  - intros Hf userId body.
    unfold updateStudent, try_catch, bind, Student_findOneAndUpdate.
    destruct (prepare_update _); [now rewrite Hf | reflexivity].
  - intros Hf studentId. unfold deleteStudent, try_catch, bind, Student_findById.
    now rewrite Hf.
Qed.

(** ** What every reachable store satisfies *)

Lemma account_with_none_fresh email st :
  account_with email st = None -> email ∉ u_email <$> users st.
Proof.
  unfold account_with. intros Hno Hin.
  apply list_elem_of_fmap in Hin as (u & -> & Hu).
  apply list_elem_of_In in Hu. pose proof (find_none _ _ Hno u Hu) as Hf.
  simpl in Hf. now rewrite String.eqb_refl in Hf.
Qed.

Lemma unique_emails_with_account u st :
  unique_emails st -> account_with (u_email u) st = None ->
  unique_emails (with_account u st).
Proof.
  unfold unique_emails. simpl. intros Hnd Hno. rewrite fmap_app.
  apply NoDup_app. split; [assumption|]. split; [|apply NoDup_singleton].
  intros x Hx Hx'. apply list_elem_of_singleton in Hx'. subst x.
  now apply (account_with_none_fresh (u_email u) st).
Qed.

(** The accounts a registration with a string email leaves. *)
Lemma register_accounts_string e body email st :
  body !! "email" = Some (VStr email) ->
  users (snd (register e body st)) = users st \/
  account_with email st = None /\
  exists u, u_email u = email /\ users (snd (register e body st)) = users st ++ [u].
Proof.
  intros He. destruct (fails e OpUserFindOne) eqn:Hf.
  { left. unfold register, try_catch, register_try, bind, User_findOne. now rewrite Hf. }
  destruct (account_with email st) as [w|] eqn:Hacc.
  { left. now rewrite (register_taken e body email st w). }
  destruct (body !! "password") as [pw|] eqn:Hp.
  2:{ left. unfold register, try_catch, register_try, bind.
      now rewrite He, User_findOne_string, Hacc, Hp. }
  assert (Hpw : (exists plain, pw = VStr plain) \/ not_a_string (Some pw))
    by (destruct pw; simpl; eauto).
  destruct Hpw as [[plain ->]|Hns].
  2:{ left. unfold register, try_catch, register_try, bind.
      rewrite He, User_findOne_string, Hacc, Hp by assumption.
      destruct pw; try reflexivity. destruct Hns. }
  destruct (fails e OpUserCreate) eqn:Hc.
  { left. unfold register, try_catch, register_try, bind.
    rewrite He, User_findOne_string, Hacc, Hp by assumption. simpl.
    unfold User_create. now rewrite Hc. }
  right. split; [reflexivity|]. exists (new_account e email plain st).
  split; [reflexivity|].
  rewrite (register_profile_step e body email plain st) by assumption. cbv zeta.
  destruct (split_skills _) as [ex|skills]; [reflexivity|].
  destruct (Student_create e _ _) as [[ex|d] st2] eqn:Hsc;
    apply Student_create_inv in Hsc as [(? & ? & ->)|(? & _ & _ & _ & ? & ->)];
    simplify_eq; reflexivity.
Qed.

Lemma updateStudent_accounts e userId body st :
  users (snd (updateStudent e userId body st)) = users st.
Proof.
  unfold updateStudent, try_catch, bind, Student_findOneAndUpdate.
  destruct (prepare_update _) as [apply|]; [|reflexivity].
  destruct (fails e OpStudentFindOneAndUpdate); [reflexivity|].
  destruct (find _ _) as [d|]; [|reflexivity]. now destruct (apply d).
Qed.

Lemma consistent_with_users l st :
  consistent st -> u_id <$> l = u_id <$> users st -> consistent (with_users l st).
Proof.
  intros [Hk Hu Hpk Hpu Hl Ho] Heq. split; simpl; try assumption.
  - apply (Forall_fmap u_id (fun i => (i < next_id st)%N)). rewrite Heq.
    now apply Forall_fmap.
  - now rewrite Heq.
Qed.

Lemma resetPassword_consistent e body st :
  consistent st -> consistent (snd (resetPassword e body st)).
Proof.
  intros Hcons.
  pose proof (resetPassword_projection u_id e body st Hcons (fun _ _ => eq_refl)) as Hids.
  destruct (resetPassword_outcomes e body st) as [[_ ->]|(u & plain & _ & _ & Hr)];
    [assumption|].
  rewrite Hr in *. simpl in *. now apply consistent_with_users.
Qed.

(** The two invariants together. *)
Definition sound (st : db) : Prop := consistent st /\ unique_emails st.

Lemma serve_sound e r st : tame r -> sound st -> sound (serve e r st).
Proof.
  intros Ht [Hcons Huniq]. destruct r as [body|body|userId|down|userId body|studentId|body];
    simpl in *.
  - now rewrite login_keeps_store.
  - split; [now apply register_consistent|].
    destruct Ht as [email He].
    destruct (register_accounts_string e body email st He) as [Hu|(Hno & u & Hmail & Hu)];
      unfold unique_emails; rewrite Hu; [assumption|].
    subst email. now apply (unique_emails_with_account u st).
  - now rewrite getStudent_keeps_store.
  - now destruct down.
  - destruct Ht as [Hp Hnone]. split; [now apply updateStudent_consistent|].
    unfold unique_emails. now rewrite updateStudent_accounts.
  - split; [now apply deleteStudent_consistent|].
    destruct (deleteStudent_accounts e studentId st) as [_ [Hu|(d & a & _ & _ & Hu)]];
      unfold unique_emails; rewrite Hu; [assumption|].
    rewrite list_fmap_alt. apply remove_first_NoDup. now rewrite <- list_fmap_alt.
  - split; [now apply resetPassword_consistent|].
    unfold unique_emails.
    now rewrite (resetPassword_projection u_email e body st Hcons (fun _ _ => eq_refl)).
Qed.

Lemma initializeAdmin_sound e st : sound st -> sound (initializeAdmin e st).
Proof.
  intros [Hcons Huniq].
  destruct (initializeAdmin_outcomes e st) as [->|(Hno & _ & _ & ->)];
    [now split|]. split.
  - now apply consistent_with_account.
  - now apply unique_emails_with_account.
Qed.

(** X17: from the empty store, after the admin bootstrap and any
    sequence of requests in which registrations carry a string email and
    updates are of plain property names and leave [userId] alone, served
    one after the other with whatever storage failures: no two accounts
    share an identifier or an email, no two profiles share an identifier,
    no account has two profiles, and every identifier and account
    reference is below the store's counter. *)
Theorem reachable_stores_are_sound e0 reqs :
  Forall (fun er => tame (snd er)) reqs ->
  consistent (serve_all reqs (initializeAdmin e0 empty_db)) /\
  unique_emails (serve_all reqs (initializeAdmin e0 empty_db)).
Proof.
  intros Htame.
  assert (Hstart : sound (initializeAdmin e0 empty_db)).
  { apply initializeAdmin_sound. split; [apply consistent_empty | constructor]. }
  revert Hstart. generalize (initializeAdmin e0 empty_db).
  induction Htame as [|[e r] reqs Hr Hrest IH]; intros st Hst; [exact Hst|].
  simpl. apply IH. now apply serve_sound.
Qed.

(** ** Reading a profile, and reading it back *)

(** X18: when the query does not fail, [getStudent] answers 200 with a
    profile of the store that is linked to the account asked for, the
    first such in the collection, or 404 "Student not found" when no
    profile of the store is linked to it; nothing else. *)
Theorem getStudent_answers_by_link e userId st :
  fails e OpStudentFindOne = false ->
  (exists i d, students st !! i = Some d /\ ref "userId" d = Some userId /\
     (forall j x, (j < i)%nat -> students st !! j = Some x -> ref "userId" x <> Some userId) /\
     getStudent e userId st = (reply 200 (StudentOk d), st)) \/
  (Forall (fun d => ref "userId" d <> Some userId) (students st) /\
   getStudent e userId st = (fail_with 404 "Student not found", st)).
Proof.
  intros Hok. destruct (find (has_id "userId" userId) (students st)) as [d|] eqn:Hf.
  - left. destruct (replace_first_insert _ d d _ Hf) as (i & Hi & _ & Hbefore).
    exists i, d. split; [assumption|]. split.
    + apply has_id_ref. now apply find_some in Hf.
    + split; [|now apply getStudent_found].
      intros j x Hj Hx Hlink. apply has_id_ref in Hlink.
      rewrite (Hbefore j x Hj Hx) in Hlink. discriminate.
  - right. assert (Hall : Forall (fun d => ref "userId" d <> Some userId) (students st)).
    { apply Forall_forall. intros x Hx Hlink. apply has_id_ref in Hlink.
      apply list_elem_of_In in Hx. pose proof (find_none _ _ Hf x Hx). congruence. }
    split; [assumption | now apply getStudent_none].
Qed.

Lemma find_replace_first_same {A} (p : A -> bool) (l : list A) (x y : A) :
  find p l = Some x -> p y = true -> find p (replace_first p y l) = Some y.
Proof.
  induction l as [|z l IH]; cbn [find replace_first]; [discriminate|].
  destruct (p z) eqn:Hz; intros Hf Hy; cbn [find].
  - now rewrite Hy.
  - rewrite Hz. auto.
Qed.

(** X19: after an update that answered 200, for a body of plain
    property names without [userId], [getStudent] for the same account
    answers with exactly the record the update returned. *)
Theorem updateStudent_then_getStudent e e2 userId body st d' :
  plain body -> body !! "userId" = None ->
  json (fst (updateStudent e userId body st)) = StudentOk d' ->
  fails e2 OpStudentFindOne = false ->
  getStudent e2 userId (snd (updateStudent e userId body st)) =
    (reply 200 (StudentOk d'), snd (updateStudent e userId body st)).
Proof.
  intros Hp Hnone Hjson Hok. revert Hjson.
  unfold updateStudent, try_catch, bind, Student_findOneAndUpdate, prepare_update.
  destruct (decide (plain _)) as [_|Hnp]; [|destruct Hnp; now apply plain_updatedAt].
  destruct (cast_doc studentPaths _) as [set|] eqn:Hc; [|discriminate].
  destruct (fails e OpStudentFindOneAndUpdate); [discriminate|].
  destruct (find _ _) as [d|] eqn:Hf; [|discriminate].
  destruct (keeps_id set d) eqn:Hid; [|discriminate].
  simpl. intros [= <-]. apply getStudent_found; [assumption|]. simpl.
  apply (find_replace_first_same _ _ d); [assumption|].
  apply has_id_ref.
  assert (Hlink : ref "userId" (set ∪ d) = ref "userId" d).
  { unfold ref. rewrite lookup_union_r; [reflexivity|].
    rewrite (cast_doc_lookup studentPaths _ set "userId" (path SObjectId true false)
               studentPaths_NoDup Hc) by (apply list_elem_of_In; simpl; tauto).
    now rewrite lookup_insert_ne, Hnone. }
  rewrite Hlink. apply has_id_ref. now apply find_some in Hf.
Qed.

(** X20: for a string email and a string password, the two refusals of
    [login] are the same response and leave the same store: a password
    bcrypt does not accept for the account of the email, and an email no
    account has. *)
Theorem login_refusals_same_for_strings e st body1 body2 known unknown plain1 plain2 u :
  fails e OpUserFindOne = false ->
  body1 !! "email" = Some (VStr known) -> body1 !! "password" = Some (VStr plain1) ->
  body2 !! "email" = Some (VStr unknown) -> body2 !! "password" = Some (VStr plain2) ->
  account_with known st = Some u ->
  bcrypt_verify plain1 (u_password u) = false ->
  account_with unknown st = None ->
  login e body1 st = login e body2 st /\
  login e body1 st = (fail_with 401 "Invalid credentials", st).
Proof.
  intros Hok He1 Hp1 He2 Hp2 Hu Hv Hno.
  rewrite (login_mismatch e body1 known plain1 st u) by assumption.
  rewrite (login_no_account e body2 unknown st) by assumption. auto.
Qed.

End Routes.

(** * The scenarios, run *)

Import Demo.

Lemma register_alice :
  register (at_time 1000) alice empty_db =
    (reply 200 (RegisterOk alice_token alice_view), registered).
Proof. vm_compute. reflexivity. Qed.

Lemma users_registered : users registered = [alice_account].
Proof. vm_compute. reflexivity. Qed.

Lemma account_registered : account_with "a@x.com" registered = Some alice_account.
Proof. vm_compute. reflexivity. Qed.

Lemma consistent_registered : consistent registered.
Proof. apply register_consistent, consistent_empty. Qed.

(** The scenario of the specification: skills "go, rust, c" in department
    "IT" with project "Alpha". *)
Example scenario_IT :
  (fun d : obj => (d !! "skills", d !! "project")) <$> students registered =
    [ (Some (VArr [VStr "go"; VStr "rust"; VStr "c"]), Some (VStr "Alpha")) ].
Proof. vm_compute. reflexivity. Qed.

(** The same with department "HR": the project given is not stored. *)
Example scenario_HR :
  (fun d : obj => (d !! "skills", d !! "project")) <$>
    students (snd (register (at_time 1000) alice_hr empty_db)) =
    [ (Some (VArr [VStr "go"; VStr "rust"; VStr "c"]), None) ].
Proof. vm_compute. reflexivity. Qed.

Example split_trim_filter :
  split_skills (Some (VStr " a ,, b,  ,c ")) = inr ["a"; "b"; "c"].
Proof. vm_compute. reflexivity. Qed.

(** ** Login after registration *)

Lemma login_after_register_witness :
  exists tok2 c c2,
    login (at_time 2000) alice registered =
      (reply 200 (LoginOk (v_role alice_view) tok2 alice_view), registered) /\
    jwt_decode alice_token = Some c /\ jwt_decode tok2 = Some c2 /\
    c_userId c2 = c_userId c /\ c_role c2 = c_role c /\
    c_userId c = v_id alice_view /\ c_role c = v_role alice_view.
Proof.
  apply (login_after_register (at_time 1000) (at_time 2000) alice alice "a@x.com"
           empty_db registered alice_token alice_view).
  - reflexivity.
  - reflexivity.
  - reflexivity.
  - exact register_alice.
  - reflexivity.
Defined.

(** A password sent as a number: 500 for the email that has an account,
    401 for the one that has none. *)
Lemma login_non_string_password_witness :
  login (at_time 2000) {[ "email" := VStr "a@x.com"; "password" := VNum 12345 ]} registered
    = (fail_with 500 "Login failed", registered) /\
  login (at_time 2000) {[ "email" := VStr "b@x.com"; "password" := VNum 12345 ]} registered
    = (fail_with 401 "Invalid credentials", registered) /\
  fst (login (at_time 2000)
         {[ "email" := VStr "a@x.com"; "password" := VNum 12345 ]} registered) <>
  fst (login (at_time 2000)
         {[ "email" := VStr "b@x.com"; "password" := VNum 12345 ]} registered).
Proof.
  apply (login_non_string_password_tells_accounts (at_time 2000) registered
           "a@x.com" "b@x.com" (Some (VNum 12345)) alice_account).
  - reflexivity.
  - exact account_registered.
  - vm_compute. reflexivity.
  - exact I.
  - reflexivity.
  - reflexivity.
  - reflexivity.
  - reflexivity.
Defined.

(** ** Registering an email twice *)

Lemma register_existing_email_witness :
  register (at_time 2000) alice registered =
    (fail_with 400 "Email already registered", registered).
Proof.
  apply (register_existing_email (at_time 2000) alice "a@x.com" registered alice_account).
  - reflexivity.
  - reflexivity.
  - rewrite users_registered. apply list_elem_of_here.
  - reflexivity.
Defined.

(** ** A missing required property *)



(** ** The orphaned account *)

Lemma register_orphans_account_witness :
  register (at_time 1000) (delete "fullName" alice) empty_db =
    (fail_with 500 "Registration failed", orphaned) /\
  users orphaned = users empty_db ++ [alice_account] /\
  students orphaned = students empty_db /\
  (forall e2, fails e2 OpStudentFindOne = false ->
     getStudent e2 (u_id alice_account) orphaned =
       (fail_with 404 "Student not found", orphaned)) /\
  (forall e2 body2, fails e2 OpUserFindOne = false ->
     body2 !! "email" = Some (VStr "a@x.com") ->
     register e2 body2 orphaned = (fail_with 400 "Email already registered", orphaned)).
Proof.
  change alice_account with (new_account (at_time 1000) "a@x.com" "p1" empty_db).
  change orphaned
    with (with_account (new_account (at_time 1000) "a@x.com" "p1" empty_db) empty_db).
  apply (register_orphans_account (at_time 1000) (delete "fullName" alice)
           "a@x.com" "p1" empty_db ValidationError
           (with_account (new_account (at_time 1000) "a@x.com" "p1" empty_db) empty_db)).
  - exact consistent_empty.
  - reflexivity.
  - reflexivity.
  - reflexivity.
  - reflexivity.
  - reflexivity.
  - vm_compute. reflexivity.
Defined.

(** ** Skills and project *)


(** ** The role of a registered account *)

Lemma register_role_is_student_witness :
  (users registered = users empty_db \/
   exists u, users registered = users empty_db ++ [u] /\ u_role u = "student") /\
  (forall tok v, json (reply 200 (RegisterOk alice_token alice_view)) = RegisterOk tok v ->
     v_role v = "student" /\
     exists c, jwt_decode tok = Some c /\ c_role c = "student" /\ c_userId c = v_id v) /\
  (forall x, register (at_time 1000) (<["role" := x]> (<["role" := VStr "admin"]> alice))
               empty_db
             = (reply 200 (RegisterOk alice_token alice_view), registered)).
Proof.
  apply (register_role_is_student (at_time 1000) (<["role" := VStr "admin"]> alice)
           empty_db (reply 200 (RegisterOk alice_token alice_view)) registered).
  vm_compute. reflexivity.
Defined.

(** ** Updating *)



Lemma updateStudent_keeps_createdAt_witness :
  (fun d : obj => d !! "createdAt") <$>
    students (snd (updateStudent (at_time 2000) 0%N new_course registered)) =
  (fun d : obj => d !! "createdAt") <$> students registered.
Proof.
  apply (updateStudent_keeps_createdAt (at_time 2000) 0%N new_course registered).
  - apply map_Forall_singleton. reflexivity.
  - reflexivity.
Defined.

(** C8, as stated, fails: an update whose body carries [createdAt]
    replaces the stored one (1000 before, 5000 after). *)
Lemma update_overwrites_createdAt :
  (fun d : obj => d !! "createdAt") <$> students registered = [Some (VDate 1000)] /\
  (fun d : obj => d !! "createdAt") <$>
    students (snd (updateStudent (at_time 2000) 0%N backdated registered)) =
    [Some (VDate 5000)].
Proof. split; vm_compute; reflexivity. Qed.

(** ** Deleting *)


(** Deleting the registered student empties both collections; with a
    storage failure on the second deletion the account is gone and the
    profile is left; an identifier that is an account's, not a profile's,
    finds nothing. *)
Example delete_scenarios :
  let gone := deleteStudent (at_time 3000) 1%N registered in
  let half := deleteStudent (failing 3000 OpStudentFindByIdAndDelete) 1%N registered in
  (fst gone, users (snd gone), List.length (students (snd gone))) = (reply 200 Done, [], 0%nat) /\
  fst (getStudent (at_time 4000) 0%N (snd gone)) = fail_with 404 "Student not found" /\
  (fst half, users (snd half), List.length (students (snd half))) =
    (fail_with 500 "Delete failed", [], 1%nat) /\
  deleteStudent (at_time 3000) 0%N registered =
    (fail_with 404 "Student not found", registered).
Proof. repeat split; vm_compute; reflexivity. Qed.

(** * The remaining routes, run *)

(** The profile of the registered student, the record an update of the
    course returns, a request for a new password. *)
Definition alice_profile : obj := default ∅ (head (students registered)).

Definition alice_updated : obj :=
  match json (fst (updateStudent (at_time 2000) 0%N new_course registered)) with
  | StudentOk d => d
  | _ => ∅
  end.

Definition new_password : obj :=
  {[ "email" := VStr "a@x.com"; "newPassword" := VStr "p2" ]}.

(** Two profiles, created at times 1 and 2. *)
Definition two_profiles : db :=
  {| users := [];
     students := [ {[ "_id" := VId 1%N; "createdAt" := VDate 1 ]};
                   {[ "_id" := VId 2%N; "createdAt" := VDate 2 ]} ];
     next_id := 3%N |}.

(** The scenario of the listing: the profile created later comes first. *)
Example listing_scenario :
  listStudents false two_profiles =
    ({| list_status := 200;
        list_json := Students [ {[ "_id" := VId 2%N; "createdAt" := VDate 2 ]};
                                {[ "_id" := VId 1%N; "createdAt" := VDate 1 ]} ] |},
     two_profiles).
Proof. vm_compute. reflexivity. Qed.

Lemma unique_emails_registered : unique_emails registered.
Proof. unfold unique_emails. rewrite users_registered. apply NoDup_singleton. Qed.

Lemma profile_registered :
  find (has_id "_id" 1%N) (students registered) = Some alice_profile.
Proof. vm_compute. reflexivity. Qed.

Lemma login_success_sound_witness :
  exists u plain p,
    email_filter (alice !! "email") = Some p /\
    find (fun x => p (u_email x)) (users registered) = Some u /\
    alice !! "password" = Some (VStr plain) /\
    bcrypt_verify plain (u_password u) = true /\
    registered = registered /\
    reply 200 (LoginOk "student" (jwt_sign (at_time 2000) 0%N "student") alice_view) =
      reply 200 (LoginOk (u_role u) (jwt_sign (at_time 2000) (u_id u) (u_role u)) (view_of u)) /\
    exists c, jwt_decode (jwt_sign (at_time 2000) (u_id u) (u_role u)) = Some c /\
              c_userId c = u_id u /\ c_role c = u_role u /\
              c_iat c = now (at_time 2000) / 1000 /\ c_exp c = c_iat c + 604800.
Proof.
  apply (login_success_sound (at_time 2000) alice registered
           (reply 200 (LoginOk "student" (jwt_sign (at_time 2000) 0%N "student") alice_view))
           registered).
  - vm_compute. reflexivity.
  - reflexivity.
Defined.

Lemma register_then_getStudent_witness :
  exists d,
    getStudent (at_time 2000) (v_id alice_view) registered =
      (reply 200 (StudentOk d), registered) /\
    students registered = students empty_db ++ [d] /\
    d !! "userId" = Some (VId (v_id alice_view)) /\
    d !! "email" = Some (VStr "a@x.com") /\
    d !! "createdAt" = Some (VDate (now (at_time 1000))) /\
    d !! "updatedAt" = Some (VDate (now (at_time 1000))) /\
    (forall k p, (k, p) ∈ studentSchema -> required p = true ->
       required_ok (d !! k) = true) /\
    (forall k s, In k copied -> alice !! k = Some (VStr s) -> d !! k = Some (VStr s)).
Proof.
  apply (register_then_getStudent (at_time 1000) (at_time 2000) alice "a@x.com"
           empty_db alice_token alice_view registered).
  - exact consistent_empty.
  - reflexivity.
  - exact register_alice.
  - reflexivity.
Defined.

Lemma register_bad_password_witness :
  snd (register (at_time 1000) (<["password" := VNum 1]> alice) empty_db) = empty_db /\
  status (fst (register (at_time 1000) (<["password" := VNum 1]> alice) empty_db)) <> 200.
Proof.
  apply (register_bad_password_writes_nothing (at_time 1000)
           (<["password" := VNum 1]> alice) empty_db).
  rewrite lookup_insert_eq. exact I.
Defined.

Lemma skills_are_clean_witness :
  Forall (fun skill => skill <> EmptyString /\ trim skill = skill /\
                       has_char "," skill = false) ["go"; "rust"; "c"].
Proof.
  apply (skills_are_clean (Some (VStr "go, rust, c")) ["go"; "rust"; "c"]).
  vm_compute. reflexivity.
Defined.

Lemma deleteStudent_frees_email_witness :
  account_with (u_email alice_account) (snd (deleteStudent (at_time 3000) 1%N registered))
    = None /\
  forall e2 body, body !! "email" = Some (VStr (u_email alice_account)) ->
    fst (register e2 body (snd (deleteStudent (at_time 3000) 1%N registered)))
      <> fail_with 400 "Email already registered".
Proof.
  apply (deleteStudent_frees_email (at_time 3000) 1%N registered alice_profile alice_account).
  - exact consistent_registered.
  - exact unique_emails_registered.
  - reflexivity.
  - reflexivity.
  - exact profile_registered.
  - rewrite users_registered. apply list_elem_of_here.
  - vm_compute. reflexivity.
Defined.


Lemma resetPassword_then_login_witness :
  fst (resetPassword (at_time 3000) new_password registered) = reply 200 Done /\
  (forall body2, body2 !! "email" = Some (VStr "a@x.com") ->
     body2 !! "password" = Some (VStr "p2") ->
     login (at_time 4000) body2 (snd (resetPassword (at_time 3000) new_password registered)) =
       (reply 200 (LoginOk (u_role alice_account)
                     (jwt_sign (at_time 4000) (u_id alice_account) (u_role alice_account))
                     (view_of alice_account)),
        snd (resetPassword (at_time 3000) new_password registered))) /\
  (forall body2 other, body2 !! "email" = Some (VStr "a@x.com") ->
     body2 !! "password" = Some (VStr other) ->
     bcrypt_verify other (bcrypt_digest "p2" (salt (at_time 3000))) = false ->
     login (at_time 4000) body2 (snd (resetPassword (at_time 3000) new_password registered)) =
       (fail_with 401 "Invalid credentials",
        snd (resetPassword (at_time 3000) new_password registered))).
Proof.
  apply (resetPassword_then_login (at_time 3000) (at_time 4000) new_password "a@x.com" "p2"
           registered alice_account).
  - exact consistent_registered.
  - reflexivity.
  - reflexivity.
  - reflexivity.
  - reflexivity.
  - reflexivity.
  - exact account_registered.
Defined.

(** The old password no longer opens the account after the reset. *)
Example old_password_refused :
  fst (login (at_time 4000) alice
         (snd (resetPassword (at_time 3000) new_password registered))) =
    fail_with 401 "Invalid credentials".
Proof. vm_compute. reflexivity. Qed.

Lemma reachable_stores_are_sound_witness :
  consistent (serve_all [ (at_time 1000, PostRegister alice);
                          (at_time 2000, PutStudent 1%N new_course);
                          (at_time 3000, PostResetPassword new_password);
                          (at_time 4000, DeleteStudent 2%N) ]
                (initializeAdmin (at_time 0) empty_db)) /\
  unique_emails (serve_all [ (at_time 1000, PostRegister alice);
                             (at_time 2000, PutStudent 1%N new_course);
                             (at_time 3000, PostResetPassword new_password);
                             (at_time 4000, DeleteStudent 2%N) ]
                   (initializeAdmin (at_time 0) empty_db)).
Proof.
  apply (reachable_stores_are_sound (at_time 0)).
  repeat constructor.
  - exists "a@x.com". reflexivity.
  - apply map_Forall_singleton. reflexivity.
Defined.

Lemma getStudent_answers_by_link_witness :
  (exists i d, students registered !! i = Some d /\ ref "userId" d = Some 0%N /\
     (forall j x, (j < i)%nat -> students registered !! j = Some x ->
        ref "userId" x <> Some 0%N) /\
     getStudent (at_time 2000) 0%N registered = (reply 200 (StudentOk d), registered)) \/
  (Forall (fun d => ref "userId" d <> Some 0%N) (students registered) /\
   getStudent (at_time 2000) 0%N registered =
     (fail_with 404 "Student not found", registered)).
Proof.
  apply (getStudent_answers_by_link (at_time 2000) 0%N registered). reflexivity.
Defined.

Lemma updateStudent_then_getStudent_witness :
  getStudent (at_time 3000) 0%N
    (snd (updateStudent (at_time 2000) 0%N new_course registered)) =
    (reply 200 (StudentOk alice_updated),
     snd (updateStudent (at_time 2000) 0%N new_course registered)).
Proof.
  apply (updateStudent_then_getStudent (at_time 2000) (at_time 3000) 0%N new_course
           registered alice_updated).
  - apply map_Forall_singleton. reflexivity.
  - reflexivity.
  - vm_compute. reflexivity.
  - reflexivity.
Defined.

Lemma login_refusals_same_for_strings_witness :
  login (at_time 2000) {[ "email" := VStr "a@x.com"; "password" := VStr "wrong" ]} registered =
  login (at_time 2000) {[ "email" := VStr "b@x.com"; "password" := VStr "p1" ]} registered /\
  login (at_time 2000) {[ "email" := VStr "a@x.com"; "password" := VStr "wrong" ]} registered =
    (fail_with 401 "Invalid credentials", registered).
Proof.
  apply (login_refusals_same_for_strings (at_time 2000) registered _ _
           "a@x.com" "b@x.com" "wrong" "p1" alice_account).
  - reflexivity.
  - reflexivity.
  - reflexivity.
  - reflexivity.
  - reflexivity.
  - exact account_registered.
  - vm_compute. reflexivity.
  - vm_compute. reflexivity.
Defined.
